(** * A shallow embedding of the email-draft service

    Two request handlers are embedded here, each from its source:

    - the serverless handler [exports.handler] with its helper
      [makeResults] (the "draft orchestrator", at the end of
      src/backend/README.md), which calls the knowledge-base retriever
      and then the language model;
    - the Express route [POST /ai-draft] of [createQueryRouter]
      (src/unnamed/part_001) with the client [invokeQuery] of
      [BedrockApiClient] (src/unnamed/part_000), the "gateway", which
      validates a request body and forwards it over HTTP.

    JavaScript values are embedded as a tree type, strings as sequences
    of UTF-16 code units, exceptions as an explicit [Throw] result, and
    every [await] of an external service as a node of a program tree
    whose answer is supplied by the environment.  [console.log] and
    [console.error] have no effect on any response and are left out. *)

From Stdlib Require Import List String Ascii NArith Arith Bool Lia.
From Stdlib Require Import DecimalString ZArith QArith.
Import ListNotations.
Local Open Scope list_scope.
Local Open Scope nat_scope.

(* ================================================================== *)
(** ** Strings                                                         *)
(* ================================================================== *)

(** A JavaScript string is a sequence of 16-bit code units. *)
Definition jsstring : Type := list N.

(** An ASCII literal of the source text. *)
Definition lit (s : string) : jsstring :=
  map N_of_ascii (list_ascii_of_string s).
Arguments lit s%_string.

(** The double quote, which the literals of this file never contain. *)
Definition dq : jsstring := [34%N].

(** The line feed of a template literal and of the escape [\n]. *)
Definition nl : jsstring := [10%N].

(** [String(n)] for a non-negative integer below 2^53. *)
Definition decimal (n : nat) : jsstring :=
  lit (NilZero.string_of_uint (Nat.to_uint n)).

Fixpoint str_eqb (a b : jsstring) : bool :=
  match a, b with
  | [], [] => true
  | x :: a', y :: b' => N.eqb x y && str_eqb a' b'
  | _, _ => false
  end.

Definition is_empty (s : jsstring) : bool :=
  match s with [] => true | _ :: _ => false end.

Fixpoint starts_with (s needle : jsstring) {struct needle} : bool :=
  match needle, s with
  | [], _ => true
  | _ :: _, [] => false
  | n :: needle', c :: s' => N.eqb n c && starts_with s' needle'
  end.

(** [s.includes(needle)] *)
Fixpoint includes (s needle : jsstring) : bool :=
  starts_with s needle ||
  match s with
  | [] => false
  | _ :: s' => includes s' needle
  end.

(** [parts.join(sep)] on an array of strings. *)
Fixpoint join (sep : jsstring) (parts : list jsstring) : jsstring :=
  match parts with
  | [] => []
  | [p] => p
  | p :: rest => p ++ sep ++ join sep rest
  end.

(** The code units [String.prototype.trim] strips: ECMAScript's
    WhiteSpace (TAB, VT, FF, ZWNBSP and the space separators) and
    LineTerminator (LF, CR, LS, PS). *)
Definition is_white_space (c : N) : bool :=
  existsb (N.eqb c)
    [9; 10; 11; 12; 13; 32; 160; 5760; 8232; 8233; 8239; 8287; 12288; 65279]%N
  || (N.leb 8192 c && N.leb c 8202).

Fixpoint trimStart (s : jsstring) : jsstring :=
  match s with
  | [] => []
  | c :: s' => if is_white_space c then trimStart s' else s
  end.

Definition trimEnd (s : jsstring) : jsstring := rev (trimStart (rev s)).

(** [s.trim()] *)
Definition trim (s : jsstring) : jsstring := trimEnd (trimStart s).

(** [url.replace(/\/$/, '')]: one trailing slash is removed. *)
Definition strip_trailing_slash (url : jsstring) : jsstring :=
  match rev url with
  | 47%N :: r => rev r
  | _ => url
  end.

(* ================================================================== *)
(** ** Values, exceptions and the engine interface                     *)
(* ================================================================== *)

(** The values a parsed JSON body is made of, and [undefined] for what
    is absent.  An object is the list of its properties, each key once.
    The type of numbers is a parameter: the program only tests numbers
    for truth, compares them with zero and prints them (see [Engine]). *)
#[local] Unset Elimination Schemes.
Inductive value (number : Type) : Type :=
| VUndefined
| VNull
| VBool (b : bool)
| VNum (n : number)
| VStr (s : jsstring)
| VArr (elems : list (value number))
| VObj (props : list (jsstring * value number)).
#[local] Set Elimination Schemes.

Arguments VUndefined {number}.
Arguments VNull {number}.
Arguments VBool {number} b.
Arguments VNum {number} n.
Arguments VStr {number} s.
Arguments VArr {number} elems.
Arguments VObj {number} props.

(** An instance of [Error] (or of a subclass): the program reads
    nothing but its [message].  Everything thrown in this program is
    such an instance, so [error instanceof Error] holds of each. *)
Record Error : Type := mkError { message : jsstring }.

(** Normal completion or a thrown exception; also a settled promise
    (fulfilled or rejected). *)
Inductive result (A : Type) : Type :=
| Ok (a : A)
| Throw (e : Error).

Arguments Ok {A} a.
Arguments Throw {A} e.

Definition bind_result {A B} (r : result A) (f : A -> result B) : result B :=
  match r with
  | Ok a => f a
  | Throw e => Throw e
  end.

(** The [TypeError]s the engine itself raises in this program. *)
Inductive fault : Type :=
| ReadOfNullish (base_is_null : bool) (key : jsstring)
| NotAFunction (member : jsstring)
| NotPrimitive.

(** What is left to the JavaScript engine: the number domain (IEEE 754
    doubles with their printing and parsing), the text of the errors
    the engine raises, and the text [JSON.stringify] prints. *)
Class Engine (number : Type) : Type := {
  (** [ToBoolean] of a number: false for zeros and NaN *)
  num_truthy : number -> bool;
  (** [Number::toString] *)
  num_to_string : number -> jsstring;
  (** [n > 0] *)
  num_positive : number -> bool;
  (** [s > 0], through [StringToNumber] *)
  str_positive : jsstring -> bool;
  (** the number an integer literal of the program denotes *)
  num_of_nat : nat -> number;
  (** the [message] of an engine-raised [TypeError] *)
  fault_message : fault -> jsstring;
  (** the text of a JSON document *)
  json_text : value number -> jsstring;
  (** the number [JSON.parse] reads in the text [JSON.stringify] prints
      of a number, [None] where that text is [null]: NaN and the two
      infinities are printed [null], the negative zero is printed [0],
      every other number is read back as itself *)
  num_json : number -> option number;
  (** an integer literal below 2^53 denotes that integer, which is
      finite and is printed as itself *)
  num_json_of_nat :
    forall n : nat,
      (Z.of_nat n < 2 ^ 53)%Z -> num_json (num_of_nat n) = Some (num_of_nat n)
}.

(* ================================================================== *)
(** ** The JavaScript operations the two handlers use                  *)
(* ================================================================== *)

Section Language.

Context {number : Type} {engine : Engine number}.

Abbreviation value := (value number).

(** Induction over a value and the values inside it. *)
Section value_induction.

Variable P : value -> Prop.
Hypothesis P_undefined : P VUndefined.
Hypothesis P_null : P VNull.
Hypothesis P_bool : forall b, P (VBool b).
Hypothesis P_num : forall n, P (VNum n).
Hypothesis P_str : forall s, P (VStr s).
Hypothesis P_arr : forall elems, Forall P elems -> P (VArr elems).
Hypothesis P_obj :
  forall props, Forall (fun kv => P (snd kv)) props -> P (VObj props).

Fixpoint value_induction (v : value) : P v :=
  match v with
  | VUndefined => P_undefined
  | VNull => P_null
  | VBool b => P_bool b
  | VNum n => P_num n
  | VStr s => P_str s
  | VArr elems =>
      P_arr elems
        ((fix all (l : list value) : Forall P l :=
            match l with
            | [] => Forall_nil P
            | x :: l' => Forall_cons x (value_induction x) (all l')
            end) elems)
  | VObj props =>
      P_obj props
        ((fix all (l : list (jsstring * value))
            : Forall (fun kv => P (snd kv)) l :=
            match l with
            | [] => Forall_nil _
            | (k, x) :: l' =>
                Forall_cons (k, x) (value_induction x : P (snd (k, x))) (all l')
            end) props)
  end.

End value_induction.

Definition type_error (f : fault) : Error := mkError (fault_message f).

(** [ToBoolean] *)
Definition truthy (v : value) : bool :=
  match v with
  | VUndefined | VNull => false
  | VBool b => b
  | VNum n => num_truthy n
  | VStr s => negb (is_empty s)
  | VArr _ | VObj _ => true
  end.

(** [a || b] *)
Definition or_else (a b : value) : value := if truthy a then a else b.

(** [typeof v === 'string'] *)
Definition typeof_string (v : value) : bool :=
  match v with VStr _ => true | _ => false end.

(** [v === 'literal'] *)
Definition strict_eq_str (v : value) (s : jsstring) : bool :=
  match v with VStr t => str_eqb t s | _ => false end.

(** [[l1, l2, ...].includes(v)] on an array of string literals *)
Definition array_includes (literals : list jsstring) (v : value) : bool :=
  existsb (strict_eq_str v) literals.

(** [Array.isArray(v)] *)
Definition isArray (v : value) : bool :=
  match v with VArr _ => true | _ => false end.

(** The own property [key] of an object, [undefined] when there is none. *)
Fixpoint get_own (props : list (jsstring * value)) (key : jsstring) : value :=
  match props with
  | [] => VUndefined
  | (k, v) :: rest => if str_eqb k key then v else get_own rest key
  end.

Definition has_own (props : list (jsstring * value)) (key : jsstring) : bool :=
  existsb (fun kv => str_eqb (fst kv) key) props.

(** [v.key] for the data properties this program reads ([question],
    [requestSessionId], [modelId], [conversationHistory], [role],
    [content], [text], [response], [citation], [sessionId]): none of
    them exists on a prototype, so only an object can have one; reading
    from [undefined] or [null] throws. *)
Definition get (v : value) (key : jsstring) : result value :=
  match v with
  | VUndefined => Throw (type_error (ReadOfNullish false key))
  | VNull => Throw (type_error (ReadOfNullish true key))
  | VObj props => Ok (get_own props key)
  | _ => Ok VUndefined
  end.

(** [doc.key] on a document known to be an object. *)
Definition field (doc : value) (key : jsstring) : value :=
  match doc with
  | VObj props => get_own props key
  | _ => VUndefined
  end.

(** [v[0]] *)
Definition index0 (v : value) : result value :=
  match v with
  | VUndefined => Throw (type_error (ReadOfNullish false (lit "0")))
  | VNull => Throw (type_error (ReadOfNullish true (lit "0")))
  | VArr (x :: _) => Ok x
  | VStr (c :: _) => Ok (VStr [c])
  | VObj props => Ok (get_own props (lit "0"))
  | _ => Ok VUndefined
  end.

(** [ToString], as applied by a template literal.  An array prints its
    elements joined by commas, [null] and [undefined] elements as empty
    strings.  An object prints as [[object Object]] unless it has an own
    [toString] property: a property that came out of a JSON text is not
    callable, and the conversion throws. *)
Fixpoint to_string (v : value) : result jsstring :=
  match v with
  | VUndefined => Ok (lit "undefined")
  | VNull => Ok (lit "null")
  | VBool true => Ok (lit "true")
  | VBool false => Ok (lit "false")
  | VNum n => Ok (num_to_string n)
  | VStr s => Ok s
  | VArr elems =>
      let element (x : value) : result jsstring :=
        match x with
        | VUndefined | VNull => Ok []
        | _ => to_string x
        end in
      (fix joined (l : list value) : result jsstring :=
         match l with
         | [] => Ok []
         | [x] => element x
         | x :: rest =>
             bind_result (element x) (fun s =>
             bind_result (joined rest) (fun r => Ok (s ++ lit "," ++ r)))
         end) elems
  | VObj props =>
      if has_own props (lit "toString")
      then Throw (type_error NotPrimitive)
      else Ok (lit "[object Object]")
  end.

(** [v > 0] *)
Definition gt_zero (v : value) : result bool :=
  match v with
  | VUndefined | VNull => Ok false
  | VBool b => Ok b
  | VNum n => Ok (num_positive n)
  | VStr s => Ok (str_positive s)
  | VArr _ => bind_result (to_string v) (fun s => Ok (str_positive s))
  | VObj props =>
      if has_own props (lit "toString")
      then Throw (type_error NotPrimitive)
      else Ok false
  end.

(** [v.length > 0], for a [v] that is neither [undefined] nor [null]. *)
Definition length_gt_zero (v : value) : result bool :=
  match v with
  | VUndefined => Throw (type_error (ReadOfNullish false (lit "length")))
  | VNull => Throw (type_error (ReadOfNullish true (lit "length")))
  | VArr elems => Ok (negb (Nat.eqb (List.length elems) 0))
  | VStr s => Ok (negb (Nat.eqb (List.length s) 0))
  | VObj props => gt_zero (get_own props (lit "length"))
  | VBool _ | VNum _ => Ok false
  end.

(** [v.trim()] *)
Definition call_trim (v : value) : result jsstring :=
  match v with
  | VStr s => Ok (trim s)
  | VUndefined => Throw (type_error (ReadOfNullish false (lit "trim")))
  | VNull => Throw (type_error (ReadOfNullish true (lit "trim")))
  | _ => Throw (type_error (NotAFunction (lit "trim")))
  end.

(** The document a JSON text denotes, for the text that
    [JSON.stringify(v)] prints: a property whose value is [undefined]
    is left out, an [undefined] array element is printed as [null], and
    a number is printed as [num_json] has it ([null] for a number that
    is not finite, [0] for the negative zero).  [JSON.parse] of that
    text gives the document back. *)
Fixpoint JSON_stringify (v : value) : value :=
  match v with
  | VNum n =>
      match num_json n with
      | Some printed => VNum printed
      | None => VNull
      end
  | VArr elems =>
      VArr (map (fun x => match x with
                          | VUndefined => VNull
                          | _ => JSON_stringify x
                          end) elems)
  | VObj props =>
      VObj ((fix kept (l : list (jsstring * value)) : list (jsstring * value) :=
               match l with
               | [] => []
               | (k, VUndefined) :: rest => kept rest
               | (k, x) :: rest => (k, JSON_stringify x) :: kept rest
               end) props)
  | _ => v
  end.

(** A property as it is read back from the text [JSON.stringify]
    printed of its object. *)
Definition as_received (v : value) : value :=
  match v with
  | VUndefined => VUndefined
  | _ => JSON_stringify v
  end.

(** No two properties of the object have the same key. *)
Fixpoint unique_keys (props : list (jsstring * value)) : bool :=
  match props with
  | [] => true
  | (k, _) :: rest => negb (has_own rest k) && unique_keys rest
  end.

End Language.

(* ================================================================== *)
(** ** Programs that call external services                            *)
(* ================================================================== *)

(** A handler is a tree: it returns, or it awaits a call and goes on
    with the answer the environment gives. *)
Section Programs.

Context {call : Type} {reply : call -> Type}.

Inductive prog (A : Type) : Type :=
| Ret (a : A)
| Await (c : call) (k : reply c -> prog A).

Arguments Ret {A} a.
Arguments Await {A} c k.

(** An environment answers every call; [run] collects the calls made,
    in order, and the value returned.  (Neither handler makes the same
    call twice, so an environment that answers by the call alone stands
    for any behaviour of the services.) *)
Fixpoint run {A} (world : forall c, reply c) (p : prog A) : list call * A :=
  match p with
  | Ret a => ([], a)
  | Await c k =>
      let r := run world (k (world c)) in
      (c :: fst r, snd r)
  end.

Definition calls {A} (world : forall c, reply c) (p : prog A) : list call :=
  fst (run world p).

Definition answer {A} (world : forall c, reply c) (p : prog A) : A :=
  snd (run world p).

(** A block that may throw, and [try { block } catch (err) { ... }]
    around it. *)
Fixpoint try_catch {A} (block : prog (result A))
    (handle : Error -> prog (result A)) : prog (result A) :=
  match block with
  | Ret (Ok a) => Ret (Ok a)
  | Ret (Throw e) => handle e
  | Await c k => Await c (fun r => try_catch (k r) handle)
  end.

(** [await p], then the rest. *)
Fixpoint bind_prog {A B} (p : prog A) (rest : A -> prog B) : prog B :=
  match p with
  | Ret a => rest a
  | Await c k => Await c (fun r => bind_prog (k r) rest)
  end.

(** The rest of a block after a step that may throw. *)
Definition and_then {A B} (r : result A) (rest : A -> prog (result B))
  : prog (result B) :=
  match r with
  | Ok a => rest a
  | Throw e => Ret (Throw e)
  end.

End Programs.

Arguments prog call reply A : clear implicits.
Arguments Ret {call reply A} a.
Arguments Await {call reply A} c k.

(** [x <- r ;; rest] continues inside a computation that may throw;
    [x <~ r ;; rest] continues a handler after a step that may throw. *)
Notation "x <- r ;; rest" :=
  (bind_result r (fun x => rest))
  (at level 61, r at next level, right associativity).

Notation "x <~ r ;; rest" :=
  (and_then r (fun x => rest))
  (at level 61, r at next level, right associativity).

(* ================================================================== *)
(** ** The draft orchestrator: the serverless handler                  *)
(* ================================================================== *)

(** *** What the AWS SDK exchanges *)

(** A retrieved passage, as the SDK types it: every member is optional. *)
Record S3Location : Type := { uri : option jsstring }.
Record WebLocation : Type := { url : option jsstring }.
Record RetrievalResultLocation : Type := {
  type : option jsstring;
  s3Location : option S3Location;
  webLocation : option WebLocation
}.
Record RetrievalResultContent : Type := { text : option jsstring }.
Record RetrievalResult : Type := {
  content : option RetrievalResultContent;
  location : option RetrievalResultLocation
}.
Record RetrieveResponse : Type := {
  retrievalResults : option (list RetrievalResult)
}.

(** A turn of the message list sent to the model. *)
Record Message : Type := { role : jsstring; message_content : jsstring }.

(** The document [JSON.stringify] prints as the [body] of an invocation. *)
Record InvokeModelBody : Type := {
  anthropic_version : jsstring;
  max_tokens : nat;
  temperature : Q;
  system : jsstring;
  messages : list Message
}.

Section Orchestrator.

Context {number : Type} {engine : Engine number}.

Abbreviation value := (value number).

Record RetrieveInput : Type := {
  knowledgeBaseId : option jsstring;
  retrievalQuery_text : value;
  numberOfResults : nat
}.

Record InvokeModelInput : Type := {
  modelId : value;
  contentType : jsstring;
  accept : jsstring;
  invoke_body : InvokeModelBody
}.

(** The answer of the model service, by what
    [JSON.parse(new TextDecoder().decode(invokeResponse.body))] makes of
    its bytes: a document, or a [SyntaxError]. *)
Record InvokeModelResponse : Type := { parsed_body : result value }.

(** [agentClient.send(new RetrieveCommand(input))] and
    [bedrockClient.send(new InvokeModelCommand(input))]. *)
Inductive aws_call : Type :=
| Retrieve (input : RetrieveInput)
| InvokeModel (input : InvokeModelInput).

Definition aws_reply (c : aws_call) : Type :=
  match c with
  | Retrieve _ => result RetrieveResponse
  | InvokeModel _ => result InvokeModelResponse
  end.

Definition aws_world : Type := forall c : aws_call, aws_reply c.

(** [process.env] *)
Record Env : Type := { KNOWLEDGE_BASE_ID : option jsstring }.

(** What the handler returns to the Lambda runtime; [body] is the
    document of the text [JSON.stringify] printed. *)
Record LambdaResult : Type := {
  statusCode : nat;
  body : value;
  headers : list (jsstring * jsstring)
}.

(** *** Constants *)

Definition SYSTEM_PROMPT : jsstring :=
  join nl [
    lit "You are an AI assistant helping customer service representatives draft professional email replies to customers at Silver Bullion.";
    [];
    lit "<critical_rules>";
    lit "- Write as if you ARE the CS rep speaking directly to the customer";
    lit "- Use " ++ dq ++ lit "I" ++ dq ++ lit " or " ++ dq ++ lit "we" ++ dq
      ++ lit " when referring to the company/team";
    lit "- Address the customer as " ++ dq ++ lit "you" ++ dq;
    lit "- NEVER write numbered step-by-step instructions like " ++ dq
      ++ lit "1. Do this, 2. Do that" ++ dq;
    lit "- NEVER use tutorial language like " ++ dq
      ++ lit "To create X, follow these steps..." ++ dq;
    lit "- Instead, explain things conversationally: " ++ dq
      ++ lit "You can do X by going to Y" ++ dq ++ lit " or " ++ dq
      ++ lit "Here's how it works..." ++ dq;
    lit "- Keep it friendly, helpful, and conversational";
    lit "- Keep the reply concise (2-4 short paragraphs max)";
    lit "- Use proper line breaks between paragraphs for readability";
    lit "</critical_rules>";
    [];
    lit "<anti_hallucination_rules>";
    lit "CRITICAL - READ THIS CAREFULLY:";
    lit "- You MUST ONLY answer questions using information from the company knowledge provided";
    lit "- If the company knowledge is empty, does not contain relevant information, or the question is unrelated to company products/services, respond with:";
    lit "  " ++ dq
      ++ lit "Thanks for reaching out! I don't have specific information about that in our system right now. Let me look into this for you and get back to you with accurate details, or I can connect you with someone who can help right away. Would that work for you?"
      ++ dq;
    lit "- NEVER make up information, prices, policies, exchange rates, or facts";
    lit "- NEVER use your general knowledge to answer questions";
    lit "- If you're unsure whether the knowledge base covers the question, default to saying you don't know";
    lit "- It's BETTER to say " ++ dq ++ lit "I don't know" ++ dq
      ++ lit " than to provide incorrect information";
    lit "</anti_hallucination_rules>";
    [];
    lit "<tone_guidelines>";
    lit "- Friendly and approachable (like texting a colleague, but professional)";
    lit "- Empathetic - acknowledge their question/concern";
    lit "- Helpful - give them what they need to know";
    lit "- Conversational - not robotic or overly formal";
    lit "- Brief - respect their time";
    lit "</tone_guidelines>";
    [];
    lit "Continue the email reply that has been started for you. The greeting "
      ++ dq ++ lit "Hi {{CUSTOMER_NAME}}," ++ dq
      ++ lit " has already been provided.";
    [];
    lit "You must end your response with:";
    [];
    lit "Thanks,";
    lit "{{CS_REP_NAME}}";
    [];
    lit "Make sure to include blank lines between paragraphs for readability."
  ].

(** The model used when the request names none. *)
Definition DEFAULT_MODEL : jsstring :=
  lit "anthropic.claude-3-haiku-20240307-v1:0".

(** The prefilled assistant turn. *)
Definition PREFILL : jsstring := lit "Hi {{CUSTOMER_NAME}},".

(** The sentence of the prompt that says no knowledge was found. *)
Definition NO_KNOWLEDGE : jsstring :=
  lit "The company knowledge base does not contain information relevant to this inquiry.".

(** *** [makeResults] *)

Definition makeResults (statusCode : nat)
    (responseText citationText responseSessionId : value) : LambdaResult :=
  {| statusCode := statusCode;
     body := JSON_stringify (VObj [
       (lit "response", responseText);
       (lit "citation", citationText);
       (lit "sessionId", responseSessionId) ]);
     headers := [ (lit "Access-Control-Allow-Origin", lit "*") ] |}.

(** *** Step 1: the retrieval request *)

Definition retrieveInput (env : Env) (question : value) : RetrieveInput :=
  {| knowledgeBaseId := KNOWLEDGE_BASE_ID env;
     retrievalQuery_text := question;
     numberOfResults := 5 |}.

(** *** Step 2: the context block and the citation *)

(** [result.content?.text], or the empty string when it is missing or
    empty. *)
Definition passage_text (result : RetrievalResult) : jsstring :=
  match content result with
  | Some c => match text c with Some t => t | None => [] end
  | None => []
  end.

(** [results.map((result, idx) => `[Source ${idx + 1}]: ${text}`)],
    from index [idx] on. *)
Fixpoint source_blocks (idx : nat) (results : list RetrievalResult)
  : list jsstring :=
  match results with
  | [] => []
  | result :: rest =>
      (lit "[Source " ++ decimal (idx + 1) ++ lit "]: " ++ passage_text result)
        :: source_blocks (S idx) rest
  end.

Definition context_of (results : list RetrievalResult) : jsstring :=
  join (nl ++ nl) (source_blocks 0 results).

Definition opt_is (o : option jsstring) (s : jsstring) : bool :=
  match o with Some t => str_eqb t s | None => false end.

Definition opt_value (o : option jsstring) : value :=
  match o with Some s => VStr s | None => VUndefined end.

(** The citation taken from the first result: [citationUrl] starts as
    [null] and is assigned in the [S3] and in the [WEB] branch. *)
Definition citation_of (firstResult : RetrievalResult) : value :=
  match location firstResult with
  | None => VNull
  | Some loc =>
      if opt_is (type loc) (lit "S3") then
        match s3Location loc with
        | Some s3 => opt_value (uri s3)
        | None => VUndefined
        end
      else if opt_is (type loc) (lit "WEB") then
        match webLocation loc with
        | Some web => opt_value (url web)
        | None => VUndefined
        end
      else VNull
  end.

(** [context] and [citationUrl] after step 2. *)
Definition context_and_citation (retrieveResponse : RetrieveResponse)
  : jsstring * value :=
  match retrievalResults retrieveResponse with
  | Some (firstResult :: rest) =>
      (context_of (firstResult :: rest), citation_of firstResult)
  | Some [] | None => ([], VNull)
  end.

(** *** Step 3: the user prompt *)

(** [conversationHistory && conversationHistory.length > 0] *)
Definition has_history (conversationHistory : value) : result bool :=
  if truthy conversationHistory
  then length_gt_zero conversationHistory
  else Ok false.

(** The callback of [conversationHistory.map]. *)
Definition history_line (msg : value) : result jsstring :=
  r <- get msg (lit "role") ;;
  let role := if strict_eq_str r (lit "customer")
              then lit "Customer" else lit "CS Rep" in
  c <- get msg (lit "content") ;;
  s <- to_string c ;;
  Ok (lit "[" ++ role ++ lit "]: " ++ s).

Fixpoint map_result {A B} (f : A -> result B) (l : list A) : result (list B) :=
  match l with
  | [] => Ok []
  | x :: rest =>
      y <- f x ;;
      ys <- map_result f rest ;;
      Ok (y :: ys)
  end.

(** [v.map(callback)]: only an array has the method. *)
Definition call_map (v : value) (callback : value -> result jsstring)
  : result (list jsstring) :=
  match v with
  | VArr elems => map_result callback elems
  | VUndefined => Throw (type_error (ReadOfNullish false (lit "map")))
  | VNull => Throw (type_error (ReadOfNullish true (lit "map")))
  | _ => Throw (type_error (NotAFunction (lit "map")))
  end.

Definition conversationHistorySection (conversationHistory : value)
  : result jsstring :=
  h <- has_history conversationHistory ;;
  if h then
    lines <- call_map conversationHistory history_line ;;
    let historyText := join (nl ++ nl) lines in
    Ok (lit "<conversation_history>" ++ nl ++ historyText ++ nl
        ++ lit "</conversation_history>" ++ nl ++ nl)
  else Ok [].

Definition userPrompt (question conversationHistory : value)
    (context : jsstring) : result jsstring :=
  section <- conversationHistorySection conversationHistory ;;
  q <- to_string question ;;
  h <- has_history conversationHistory ;;
  if negb (is_empty context) then
    Ok (section ++ lit "<company_knowledge>" ++ nl ++ context ++ nl
        ++ lit "</company_knowledge>" ++ nl ++ nl
        ++ lit "<customer_inquiry>" ++ nl ++ q ++ nl
        ++ lit "</customer_inquiry>" ++ nl ++ nl
        ++ lit "Draft an email reply to answer the customer's inquiry using the company knowledge provided above."
        ++ (if h
            then lit " Consider the conversation history to maintain context and continuity."
            else []))
  else
    Ok (section ++ lit "<customer_inquiry>" ++ nl ++ q ++ nl
        ++ lit "</customer_inquiry>" ++ nl ++ nl
        ++ NO_KNOWLEDGE ++ lit " Draft an appropriate email reply."
        ++ (if h
            then lit " Consider the conversation history to maintain context."
            else [])).

(** *** Step 4: the invocation request *)

Definition invokeInput (selectedModelId : value) (userPrompt : jsstring)
  : InvokeModelInput :=
  {| modelId := selectedModelId;
     contentType := lit "application/json";
     accept := lit "application/json";
     invoke_body :=
       {| anthropic_version := lit "bedrock-2023-05-31";
          max_tokens := 1000;
          temperature := 7 # 10;
          system := SYSTEM_PROMPT;
          messages := [
            {| role := lit "user"; message_content := userPrompt |};
            {| role := lit "assistant"; message_content := PREFILL |} ] |} |}.

(** *** Step 5: the generated text and the full email *)

(** [responseBody.content[0].text] *)
Definition generatedText (invokeResponse : InvokeModelResponse)
  : result value :=
  responseBody <- parsed_body invokeResponse ;;
  c <- get responseBody (lit "content") ;;
  first <- index0 c ;;
  get first (lit "text").

(** [`Hi {{CUSTOMER_NAME}},\n\n${generatedText}`] *)
Definition fullEmail (generatedText : value) : result jsstring :=
  t <- to_string generatedText ;;
  Ok (lit "Hi {{CUSTOMER_NAME}}," ++ nl ++ nl ++ t).

(** *** The handler *)

(** The response of the [catch] block. *)
Definition server_side_error (err : Error) : LambdaResult :=
  makeResults 500 (VStr (lit "Server side error: " ++ message err)) VNull VNull.

(** The body of the [try] block. *)
Definition draft (env : Env)
    (question requestSessionId modelId conversationHistory : value)
  : prog aws_call aws_reply (result LambdaResult) :=
  let selectedModelId := or_else modelId (VStr DEFAULT_MODEL) in
  Await (Retrieve (retrieveInput env question)) (fun retrieved =>
  retrieveResponse <~ retrieved ;;
  let '(context, citationUrl) := context_and_citation retrieveResponse in
  prompt <~ userPrompt question conversationHistory context ;;
  Await (InvokeModel (invokeInput selectedModelId prompt)) (fun invoked =>
  invokeResponse <~ invoked ;;
  generated <~ generatedText invokeResponse ;;
  email <~ fullEmail generated ;;
  Ret (Ok (makeResults 200 (VStr email) citationUrl requestSessionId)))).

(** [exports.handler]: the four properties are read from [event.body]
    before the [try] block (an exception there escapes the handler);
    whatever the block throws is answered with a 500. *)
Definition handler (env : Env) (event_body : value)
  : prog aws_call aws_reply (result LambdaResult) :=
  question <~ get event_body (lit "question") ;;
  requestSessionId <~ get event_body (lit "requestSessionId") ;;
  modelId <~ get event_body (lit "modelId") ;;
  conversationHistory <~ get event_body (lit "conversationHistory") ;;
  try_catch
    (draft env question requestSessionId modelId conversationHistory)
    (fun err => Ret (Ok (server_side_error err))).

End Orchestrator.

(* ================================================================== *)
(** ** The gateway: the API client and the Express route               *)
(* ================================================================== *)

Section Gateway.

Context {number : Type} {engine : Engine number}.

Abbreviation value := (value number).

(** *** What [fetch] exchanges *)

(** The second argument of [fetch]; [request_body] is the document of
    the text [JSON.stringify] printed. *)
Record RequestInit : Type := {
  method : jsstring;
  request_headers : list (jsstring * jsstring);
  request_body : value
}.

(** The [Response] of a fulfilled [fetch], by what the client reads of
    it: [status] (with [ok]), [await response.text()] and
    [await response.json()]. *)
Record Response : Type := {
  status : nat;
  response_text : result jsstring;
  response_json : result value
}.

(** [response.ok] *)
Definition ok (response : Response) : bool :=
  Nat.leb 200 (status response) && Nat.leb (status response) 299.

Inductive http_call : Type :=
| Fetch (url : jsstring) (init : RequestInit).

Definition http_reply (c : http_call) : Type := result Response.

Definition http_world : Type := forall c : http_call, http_reply c.

(** *** [BedrockApiClient] *)

Record QueryResponse : Type := {
  response : value;
  citation : value;
  sessionId : value
}.

Record BedrockApiClient : Type := { apiGatewayUrl : jsstring }.

(** The constructor. *)
Definition new_BedrockApiClient (apiGatewayUrl : jsstring)
  : BedrockApiClient :=
  {| apiGatewayUrl := strip_trailing_slash apiGatewayUrl |}.

(** [fetch(`${this.apiGatewayUrl}/ai-draft`, { method, headers, body })] *)
Definition fetch_call (this : BedrockApiClient) (request : value) : http_call :=
  Fetch (apiGatewayUrl this ++ lit "/ai-draft")
    {| method := lit "POST";
       request_headers := [ (lit "Content-Type", lit "application/json") ];
       request_body := JSON_stringify request |}.

(** What [invokeQuery] does with the response of [fetch]. *)
Definition receive (response : Response) : result QueryResponse :=
  if negb (ok response) then
    errorText <- response_text response ;;
    Throw (mkError
      (lit "API Gateway returned status " ++ decimal (status response)
       ++ lit ": " ++ errorText))
  else
    data <- response_json response ;;
    r <- get data (lit "response") ;;
    c <- get data (lit "citation") ;;
    s <- get data (lit "sessionId") ;;
    Ok {| response := r;
          citation := or_else c VNull;
          sessionId := or_else s VNull |}.

(** [invokeQuery]: its [catch] logs and throws the error again. *)
Definition invokeQuery (this : BedrockApiClient) (request : value)
  : prog http_call http_reply (result QueryResponse) :=
  Await (fetch_call this request) (fun fetched =>
  response <~ fetched ;;
  Ret (receive response)).

(** *** The route [POST /ai-draft] *)

(** What [res.status(code).json(payload)] sends: [json] is the document
    of the text printed. *)
Record ExpressResponse : Type := { res_status : nat; res_json : value }.

Definition send (code : nat) (payload : value) : ExpressResponse :=
  {| res_status := code; res_json := JSON_stringify payload |}.

(** The error envelope [{ statusCode, error, message }]. *)
Definition error_body (code : nat) (error message : jsstring) : value :=
  VObj [ (lit "statusCode", VNum (num_of_nat code));
         (lit "error", VStr error);
         (lit "message", VStr message) ].

Definition bad_request (message : jsstring) : ExpressResponse :=
  send 400 (error_body 400 (lit "Bad Request") message).

Definition validModels : list jsstring :=
  [ lit "anthropic.claude-3-haiku-20240307-v1:0";
    lit "anthropic.claude-3-sonnet-20240229-v1:0";
    lit "anthropic.claude-3-opus-20240229-v1:0" ].

(** [!question || typeof question !== 'string' ||
     question.trim().length === 0] *)
Definition question_rejected (question : value) : result bool :=
  if negb (truthy question) then Ok true
  else if negb (typeof_string question) then Ok true
  else
    t <- call_trim question ;;
    Ok (Nat.eqb (List.length t) 0).

(** [!msg.role || !msg.content] *)
Definition lacks_role_or_content (msg : value) : result bool :=
  r <- get msg (lit "role") ;;
  if negb (truthy r) then Ok true
  else
    c <- get msg (lit "content") ;;
    Ok (negb (truthy c)).

(** The loop [for (const msg of conversationHistory)]: the response of
    the first message that is refused, if any. *)
Fixpoint check_messages (msgs : list value) : result (option ExpressResponse) :=
  match msgs with
  | [] => Ok None
  | msg :: rest =>
      lacking <- lacks_role_or_content msg ;;
      if lacking then
        Ok (Some (bad_request
          (lit "Each conversation message must have role and content")))
      else
        r <- get msg (lit "role") ;;
        if negb (array_includes [lit "customer"; lit "agent"] r) then
          Ok (Some (bad_request
            (lit "Message role must be either " ++ dq ++ lit "customer" ++ dq
             ++ lit " or " ++ dq ++ lit "agent" ++ dq)))
        else check_messages rest
  end.

Definition elements (v : value) : list value :=
  match v with VArr elems => elems | _ => [] end.

(** The three validations: the response of the first one that fails. *)
Definition validate (question modelId conversationHistory : value)
  : result (option ExpressResponse) :=
  rejected <- question_rejected question ;;
  if rejected then
    Ok (Some (bad_request (lit "Missing required parameter: question")))
  else if truthy modelId && negb (array_includes validModels modelId) then
    Ok (Some (bad_request
      (lit "Invalid modelId. Must be one of: " ++ join (lit ", ") validModels)))
  else if truthy conversationHistory then
    if negb (isArray conversationHistory) then
      Ok (Some (bad_request (lit "conversationHistory must be an array")))
    else check_messages (elements conversationHistory)
  else Ok None.

(** The successful response. *)
Definition success (result : QueryResponse) : ExpressResponse :=
  send 200 (VObj [ (lit "response", response result);
                   (lit "citation", citation result);
                   (lit "sessionId", sessionId result) ]).

(** The request built for the client. *)
Definition queryRequest (trimmed : jsstring)
    (requestSessionId modelId conversationHistory : value) : value :=
  VObj [ (lit "question", VStr trimmed);
         (lit "requestSessionId", requestSessionId);
         (lit "modelId", modelId);
         (lit "conversationHistory", conversationHistory) ].

(** The body of the [try] block. *)
Definition forward (apiClient : BedrockApiClient) (req_body : value)
  : prog http_call http_reply (result ExpressResponse) :=
  question <~ get req_body (lit "question") ;;
  requestSessionId <~ get req_body (lit "requestSessionId") ;;
  modelId <~ get req_body (lit "modelId") ;;
  conversationHistory <~ get req_body (lit "conversationHistory") ;;
  refused <~ validate question modelId conversationHistory ;;
  match refused with
  | Some response => Ret (Ok response)
  | None =>
      trimmed <~ call_trim question ;;
      bind_prog
        (invokeQuery apiClient
           (queryRequest trimmed requestSessionId modelId conversationHistory))
        (fun awaited =>
      result <~ awaited ;;
      Ret (Ok (success result)))
  end.

Definition service_unavailable : ExpressResponse :=
  send 503 (error_body 503 (lit "Service Unavailable")
              (lit "Bedrock Knowledge Base temporarily unavailable")).

Definition internal_server_error : ExpressResponse :=
  send 500 (error_body 500 (lit "Internal Server Error")
              (lit "Error invoking Bedrock model")).

(** The [catch] block: [error instanceof Error] holds of whatever was
    thrown. *)
Definition respond_to_error (error : Error) : ExpressResponse :=
  if includes (message error) (lit "API Gateway")
  then service_unavailable
  else internal_server_error.

(** The handler of [router.post('/ai-draft', ...)]. *)
Definition post_ai_draft (apiClient : BedrockApiClient) (req_body : value)
  : prog http_call http_reply (result ExpressResponse) :=
  try_catch (forward apiClient req_body)
    (fun error => Ret (Ok (respond_to_error error))).

(** *** The gateway in front of the orchestrator

    "Forwards the request to your API Gateway endpoint (which invokes
    the Lambda)": with the Lambda proxy integration, the body parser of
    the function hands the posted document to the handler, and the
    result of the handler becomes the HTTP response, status and body;
    a handler that fails is answered 502 by API Gateway. *)
Definition lambda_proxy (env : Env) (aws : aws_world) : http_world :=
  fun c =>
    match c with
    | Fetch _ init =>
        match answer aws (handler env (request_body init)) with
        | Ok r =>
            Ok {| status := statusCode r;
                  response_text := Ok (json_text (body r));
                  response_json := Ok (body r) |}
        | Throw _ =>
            let doc : value :=
              VObj [ (lit "message", VStr (lit "Internal server error")) ] in
            Ok {| status := 502;
                  response_text := Ok (json_text doc);
                  response_json := Ok doc |}
        end
    end.

(** The calls the orchestrator makes while it serves the requests
    forwarded to it. *)
Definition lambda_calls (env : Env) (aws : aws_world)
    (fetches : list http_call) : list aws_call :=
  flat_map (fun c =>
              match c with
              | Fetch _ init => calls aws (handler env (request_body init))
              end) fetches.

(** One request through the gateway and the orchestrator behind it:
    the calls made to the retriever and to the model, and the response
    of the gateway. *)
Definition deployed (env : Env) (aws : aws_world)
    (apiClient : BedrockApiClient) (req_body : value)
  : list aws_call * result ExpressResponse :=
  let r := run (lambda_proxy env aws) (post_ai_draft apiClient req_body) in
  (lambda_calls env aws (fst r), snd r).

End Gateway.

(* ================================================================== *)
(** ** The chat view: highlighting the placeholders of an email        *)
(* ================================================================== *)

(** [formatEmailText] of the component [Chat] (src/unnamed/part_000). *)
Module Chat.

(** The longest run of code units other than the closing brace at the
    head of [s], and what follows it. *)
Fixpoint until_brace (s : jsstring) : jsstring * jsstring :=
  match s with
  | [] => ([], [])
  | c :: s' =>
      if N.eqb c 125 then ([], s)
      else let r := until_brace s' in (c :: fst r, snd r)
  end.

(** A match of [/\{\{[^}]+\}\}/] at the head of [s]: the text matched
    and the rest.  After the two opening braces the class takes the
    whole run of code units that are not a closing brace (a shorter run
    would be followed by one of them, not by a closing brace), the run
    must not be empty, and two closing braces must follow. *)
Definition placeholder_at (s : jsstring) : option (jsstring * jsstring) :=
  match s with
  | 123%N :: 123%N :: s' =>
      match until_brace s' with
      | (c :: name, 125%N :: 125%N :: rest) =>
          Some (lit "{{" ++ (c :: name) ++ lit "}}", rest)
      | _ => None
      end
  | _ => None
  end.

(** [part.match(/\{\{[^}]+\}\}/)] is not [null]: there is a match
    somewhere in [part]. *)
Fixpoint has_placeholder (part : jsstring) : bool :=
  match placeholder_at part with
  | Some _ => true
  | None =>
      match part with
      | [] => false
      | _ :: part' => has_placeholder part'
      end
  end.

(** [text.split(/(\{\{[^}]+\}\})/g)], from a position on: [pending] is
    the text since the last match, in reverse, and [s] what is left.
    Where the pattern matches, the pending text and the match are two
    parts and the scan goes on after the match; elsewhere the scan moves
    one code unit on; at the end the pending text is the last part.
    Each step consumes at least one code unit, so the length of the
    text is fuel enough. *)
Fixpoint split_from (fuel : nat) (pending s : jsstring) : list jsstring :=
  match fuel with
  | O => [rev pending ++ s]
  | S fuel' =>
      match placeholder_at s with
      | Some (matched, rest) =>
          rev pending :: matched :: split_from fuel' [] rest
      | None =>
          match s with
          | [] => [rev pending]
          | c :: s' => split_from fuel' (c :: pending) s'
          end
      end
  end.

Definition split (text : jsstring) : list jsstring :=
  split_from (List.length text) [] text.

(** [formatEmailText]: the parts of the text in order, each with
    whether it is rendered as a highlighted [span] ([true]) or as plain
    text ([false]). *)
Definition formatEmailText (text : jsstring) : list (bool * jsstring) :=
  map (fun part => (has_placeholder part, part)) (split text).

End Chat.

(* ================================================================== *)
(** ** The chat page: the state of [App] and its event handlers        *)
(* ================================================================== *)

(** The component [App] (src/frontend/src/App.js): its state and what
    one run of each event handler makes of it.  A handler sees the
    state of the render it was created in; the state it sets is the
    state of the next render. *)
Module App.

Section App.

Context {number : Type} {engine : Engine number}.

Abbreviation value := (value number).

(** An element of [history]. *)
Record Entry : Type := {
  question : value;
  response : value;
  citation : value
}.

Record State : Type := {
  history : list Entry;
  selectedModel : value;
  baseUrl : jsstring;
  currentQuestion : value;
  spinner : bool;
  sessionId : value
}.

(** [selectedModel?.modelId] *)
Definition optional_modelId (selectedModel : value) : value :=
  match selectedModel with
  | VObj props => get_own props (lit "modelId")
  | _ => VUndefined
  end.

(** The call [fetch(baseUrl + "rag/query", { method, headers, body })]. *)
Definition query_call (s : State) : http_call :=
  Fetch (baseUrl s ++ lit "rag/query")
    {| method := lit "POST";
       request_headers := [ (lit "Content-Type", lit "application/json") ];
       request_body :=
         JSON_stringify (VObj [
           (lit "requestSessionId", sessionId s);
           (lit "question", currentQuestion s);
           (lit "modelId", optional_modelId (selectedModel s)) ]) |}.

Definition ERROR_TEXT : jsstring :=
  lit "Error generating an answer. Please check your browser console, WAF configuration, Bedrock model access, and Lambda logs for debugging the error.".

(** The callback of [.then((data) => ...)]: what it reads of [data],
    in the order it reads it. *)
Definition read_answer (data : value) : result (value * value * value) :=
  sid <- get data (lit "sessionId") ;;
  r <- get data (lit "response") ;;
  c <- get data (lit "citation") ;;
  Ok (sid, r, c).

(** [handleSendQuestion]: the spinner is shown while the call is
    pending; the state below is the state once the promise chain has
    settled, through [.then] or through [.catch]. *)
Definition handleSendQuestion (s : State) : prog http_call http_reply State :=
  Await (query_call s) (fun fetched =>
  let settled :=
    res <- fetched ;;
    data <- response_json res ;;
    read_answer data in
  match settled with
  | Ok (sid, r, c) =>
      Ret {| history :=
               history s ++ [ {| question := currentQuestion s;
                                 response := r;
                                 citation := c |} ];
             selectedModel := selectedModel s;
             baseUrl := baseUrl s;
             currentQuestion := currentQuestion s;
             spinner := false;
             sessionId := sid |}
  | Throw _ =>
      Ret {| history :=
               history s ++ [ {| question := currentQuestion s;
                                 response := VStr ERROR_TEXT;
                                 citation := VUndefined |} ];
             selectedModel := selectedModel s;
             baseUrl := baseUrl s;
             currentQuestion := currentQuestion s;
             spinner := false;
             sessionId := sessionId s |}
  end).

(** [handleKeyDown] *)
Definition handleKeyDown (key : value) (s : State)
  : prog http_call http_reply State :=
  if strict_eq_str key (lit "Enter") then handleSendQuestion s else Ret s.

(** [onClearHistory] *)
Definition onClearHistory (s : State) : State :=
  {| history := [];
     selectedModel := selectedModel s;
     baseUrl := baseUrl s;
     currentQuestion := currentQuestion s;
     spinner := spinner s;
     sessionId := sessionId s |}.

(** [handleChangeModel] *)
Definition handleChangeModel (model : value) (s : State) : State :=
  {| history := history s;
     selectedModel := model;
     baseUrl := baseUrl s;
     currentQuestion := currentQuestion s;
     spinner := spinner s;
     sessionId := VUndefined |}.

(** The state of the first render. *)
Definition initial (REACT_APP_BASE_URL : jsstring) (firstModel : value)
  : State :=
  {| history := [];
     selectedModel := firstModel;
     baseUrl := REACT_APP_BASE_URL;
     currentQuestion := VStr [];
     spinner := false;
     sessionId := VUndefined |}.

End App.

End App.

(* ================================================================== *)
(** ** The notions the specification speaks of                         *)
(* ================================================================== *)

Section Notions.

Context {number : Type} {engine : Engine number}.

Abbreviation value := (value number).

(** A question that is missing, is not a string, is empty or consists of
    white space only. *)
Definition blank_question (question : value) : Prop :=
  match question with
  | VStr s => forallb is_white_space s = true
  | _ => True
  end.

(** A question the gateway lets through. *)
Definition question_accepted (question : value) (s : jsstring) : Prop :=
  question = VStr s /\ trim s <> [].

(** A model identifier the gateway lets through. *)
Definition model_accepted (modelId : value) : bool :=
  negb (truthy modelId) || array_includes validModels modelId.

(** A history entry the gateway lets through. *)
Definition message_accepted (msg : value) : bool :=
  match msg with
  | VObj props =>
      truthy (get_own props (lit "role"))
      && truthy (get_own props (lit "content"))
      && array_includes [lit "customer"; lit "agent"]
           (get_own props (lit "role"))
  | _ => false
  end.

(** A history entry whose role or content is the empty string. *)
Definition empty_role_or_content (msg : value) : Prop :=
  exists props,
    msg = VObj props /\
    (get_own props (lit "role") = VStr []
     \/ get_own props (lit "content") = VStr []).

(** An absent model identifier: [undefined], [null] or empty. *)
Definition absent (v : value) : Prop :=
  v = VUndefined \/ v = VNull \/ v = VStr [].

(** The source location of a passage: the URI of a storage object or
    the URL of a web page. *)
Inductive source_location (passage : RetrievalResult) (u : jsstring) : Prop :=
| storage_object_uri (loc : RetrievalResultLocation) (s3 : S3Location) :
    location passage = Some loc ->
    type loc = Some (lit "S3") ->
    s3Location loc = Some s3 ->
    uri s3 = Some u ->
    source_location passage u
| web_url (loc : RetrievalResultLocation) (web : WebLocation) :
    location passage = Some loc ->
    type loc = Some (lit "WEB") ->
    webLocation loc = Some web ->
    url web = Some u ->
    source_location passage u.

(** Retrieval returned no passage. *)
Definition no_passages (retrieveResponse : RetrieveResponse) : Prop :=
  retrievalResults retrieveResponse = None
  \/ retrievalResults retrieveResponse = Some [].

(** A value that came out of a JSON text and that [JSON.stringify]
    prints as it is: nothing in it is [undefined], and every number in
    it is printed as itself (a number read from a numeral such as
    [1e999] is infinite, and is printed [null]). *)
Fixpoint json (v : value) : Prop :=
  match v with
  | VUndefined => False
  | VNum n => num_json n = Some n
  | VArr elems =>
      (fix all (l : list value) : Prop :=
         match l with
         | [] => True
         | x :: rest => json x /\ all rest
         end) elems
  | VObj props =>
      (fix all (l : list (jsstring * value)) : Prop :=
         match l with
         | [] => True
         | (_, x) :: rest => json x /\ all rest
         end) props
  | _ => True
  end.

(** A property of a parsed body: absent, or such a JSON value. *)
Definition json_property (v : value) : Prop :=
  match v with
  | VUndefined => True
  | _ => json v
  end.

(** A conversation message as the interface [ConversationMessage]
    types it: an object whose [content] is a string. *)
Definition typed_message (msg : value) : bool :=
  match msg with
  | VObj props =>
      match get_own props (lit "content") with
      | VStr _ => true
      | _ => false
      end
  | _ => false
  end.

(** A conversation history as the interface [QueryRequest] types it:
    absent, or an array of messages. *)
Definition typed_history (conversationHistory : value) : bool :=
  match conversationHistory with
  | VUndefined => true
  | VArr msgs => forallb typed_message msgs
  | _ => false
  end.

End Notions.

(** *** Further notions *)

Section MoreNotions.

Context {number : Type} {engine : Engine number}.

Abbreviation value := (value number).

(** A text that neither begins nor ends with white space. *)
Definition no_outer_white_space (t : jsstring) : Prop :=
  (forall c rest, t = c :: rest -> is_white_space c = false)
  /\ (forall init c, t = init ++ [c] -> is_white_space c = false).

(** The last code unit of a URL is a slash. *)
Definition ends_with_slash (u : jsstring) : bool :=
  match rev u with
  | 47%N :: _ => true
  | _ => false
  end.

(** A passage whose location is missing or is neither of type [S3] nor
    of type [WEB]. *)
Definition unlocated (passage : RetrievalResult) : Prop :=
  match location passage with
  | None => True
  | Some loc =>
      opt_is (type loc) (lit "S3") = false
      /\ opt_is (type loc) (lit "WEB") = false
  end.

(** A passage whose location has type [S3] or [WEB] but holds no
    address of that type. *)
Definition located_without_address (passage : RetrievalResult) : Prop :=
  exists loc,
    location passage = Some loc
    /\ ((type loc = Some (lit "S3")
         /\ match s3Location loc with
            | Some s3 => uri s3 = None
            | None => True
            end)
        \/ (type loc = Some (lit "WEB")
            /\ match webLocation loc with
               | Some web => url web = None
               | None => True
               end)).

(** A value that is [null] or counts as true. *)
Definition null_or_true (v : value) : Prop :=
  v = VNull \/ truthy v = true.

(** The text of a placeholder: two opening braces, a name that is not
    empty and holds no closing brace, two closing braces. *)
Definition placeholder (part : jsstring) : Prop :=
  exists name,
    name <> []
    /\ forallb (fun c => negb (N.eqb c 125)) name = true
    /\ part = lit "{{" ++ name ++ lit "}}".

(** The own properties of a request body: a body that is not an object
    has none of those the route reads. *)
Definition own_properties (body : value) : list (jsstring * value) :=
  match body with
  | VObj props => props
  | _ => []
  end.

(** The error envelope [{ statusCode, error, message }] sent with the
    status [code]. *)
Definition envelope (code : nat) (error message : jsstring)
  : ExpressResponse :=
  {| res_status := code;
     res_json := VObj [ (lit "statusCode", VNum (num_of_nat code));
                        (lit "error", VStr error);
                        (lit "message", VStr message) ] |}.

(** The label of a history entry in the prompt: [Customer] for the role
    [customer], [CS Rep] for every other entry. *)
Definition speaker (msg : value) : jsstring :=
  if strict_eq_str (field msg (lit "role")) (lit "customer")
  then lit "Customer" else lit "CS Rep".

(** The content of a history entry, when it is a string. *)
Definition content_text (msg : value) : jsstring :=
  match field msg (lit "content") with
  | VStr c => c
  | _ => []
  end.

(** What the scan of [Chat.split_from] keeps true: no match of the
    pattern begins in the pending text. *)
Definition pending_is_plain (pending s : jsstring) : Prop :=
  forall before u,
    rev pending = before ++ u -> u <> [] ->
    Chat.placeholder_at (u ++ s) = None.

End MoreNotions.

(* ================================================================== *)
(** ** An engine for the concrete runs                                 *)
(* ================================================================== *)

(** The examples below are run in an engine whose numbers are the
    integers.  It prints and compares what the examples need: a string
    counts as a positive number when it is a plain decimal numeral of a
    positive integer, and a document is printed without escapes.  Every
    integer is finite, and is printed in a JSON text as itself. *)
Module Reference.

Definition number : Type := Z.

Definition print (z : Z) : jsstring :=
  match z with
  | Z0 => lit "0"
  | Zpos p => decimal (Pos.to_nat p)
  | Zneg p => lit "-" ++ decimal (Pos.to_nat p)
  end.

Definition is_digit (c : N) : bool := N.leb 48 c && N.leb c 57.

Definition numeral_positive (s : jsstring) : bool :=
  negb (is_empty s) && forallb is_digit s
  && existsb (fun c => negb (N.eqb c 48)) s.

(** The messages of V8. *)
Definition describe (f : fault) : jsstring :=
  match f with
  | ReadOfNullish is_null key =>
      lit "Cannot read properties of "
      ++ (if is_null then lit "null" else lit "undefined")
      ++ lit " (reading '" ++ key ++ lit "')"
  | NotAFunction member => member ++ lit " is not a function"
  | NotPrimitive => lit "Cannot convert object to primitive value"
  end.

Fixpoint stringify (v : value number) : jsstring :=
  match v with
  | VUndefined | VNull => lit "null"
  | VBool true => lit "true"
  | VBool false => lit "false"
  | VNum n => print n
  | VStr s => dq ++ s ++ dq
  | VArr elems => lit "[" ++ join (lit ",") (map stringify elems) ++ lit "]"
  | VObj props =>
      lit "{"
      ++ join (lit ",")
           (map (fun kv => dq ++ fst kv ++ dq ++ lit ":" ++ stringify (snd kv))
                props)
      ++ lit "}"
  end.

#[export] Instance engine : Engine number := {|
  num_truthy := fun z => negb (Z.eqb z 0);
  num_to_string := print;
  num_positive := fun z => Z.ltb 0 z;
  str_positive := numeral_positive;
  num_of_nat := Z.of_nat;
  fault_message := describe;
  json_text := stringify;
  num_json := Some;
  num_json_of_nat := fun n _ => eq_refl
|}.

End Reference.

(** *** Sample requests and environments *)

Module Samples.

Import Reference.

Abbreviation value := (value number).
Abbreviation aws_world := (aws_world (number:=number)).
Abbreviation http_world := (http_world (number:=number)).
Abbreviation InvokeModelResponse := (InvokeModelResponse (number:=number)).

Definition env : Env := {| KNOWLEDGE_BASE_ID := Some (lit "KB12345") |}.

Definition apiClient : BedrockApiClient :=
  new_BedrockApiClient (lit "https://api.example.com/prod/").

(** A passage kept in a storage object. *)
Definition stored (t u : jsstring) : RetrievalResult :=
  {| content := Some {| text := Some t |};
     location :=
       Some {| type := Some (lit "S3");
               s3Location := Some {| uri := Some u |};
               webLocation := None |} |}.

(** A passage crawled from the web. *)
Definition crawled (t u : jsstring) : RetrievalResult :=
  {| content := Some {| text := Some t |};
     location :=
       Some {| type := Some (lit "WEB");
               s3Location := None;
               webLocation := Some {| url := Some u |} |} |}.

Definition shipping : RetrievalResult :=
  stored (lit "Orders ship within two business days.")
         (lit "s3://kb/shipping.pdf").

Definition returns : RetrievalResult :=
  crawled (lit "Returns are accepted for 30 days.")
          (lit "https://example.com/returns").

(** The document of a model answer whose first block holds [t]. *)
Definition completion (t : jsstring) : InvokeModelResponse :=
  {| parsed_body :=
       Ok (VObj [ (lit "content",
                   VArr [ VObj [ (lit "type", VStr (lit "text"));
                                 (lit "text", VStr t) ] ]) ]) |}.

Definition continuation : jsstring :=
  lit "Your order ships within two business days.".

(** Both services answer; the retriever finds two passages. *)
Definition both_up : aws_world :=
  fun c =>
    match c with
    | Retrieve _ => Ok {| retrievalResults := Some [shipping; returns] |}
    | InvokeModel _ => Ok (completion continuation)
    end.

(** The retriever finds nothing. *)
Definition nothing_found : aws_world :=
  fun c =>
    match c with
    | Retrieve _ => Ok {| retrievalResults := Some [] |}
    | InvokeModel _ => Ok (completion continuation)
    end.

Definition refused : Error :=
  mkError (lit "connect ECONNREFUSED 10.0.0.5:443").

(** The retriever cannot be reached. *)
Definition retriever_down : aws_world :=
  fun c =>
    match c with
    | Retrieve _ => Throw refused
    | InvokeModel _ => Ok (completion continuation)
    end.

(** [fetch] fails to connect. *)
Definition unreachable : http_world :=
  fun c => Throw (mkError (lit "fetch failed")).

(** The upstream answers with a server error. *)
Definition upstream_error : http_world :=
  fun c =>
    Ok {| status := 500;
          response_text := Ok (lit "{}");
          response_json := Ok (VObj []) |}.

Definition question : jsstring := lit "When does my order ship?".

(** The answer expected of the orchestrator when both services are up
    and the request carries the session [session-123-abc]. *)
Definition drafted : LambdaResult (number:=number) :=
  {| statusCode := 200;
     body := VObj [
       (lit "response",
        VStr (lit "Hi {{CUSTOMER_NAME}}," ++ nl ++ nl ++ continuation));
       (lit "citation", VStr (lit "s3://kb/shipping.pdf"));
       (lit "sessionId", VStr (lit "session-123-abc")) ];
     headers := [ (lit "Access-Control-Allow-Origin", lit "*") ] |}.

(** The answer expected of the gateway for the same request. *)
Definition delivered : ExpressResponse (number:=number) :=
  {| res_status := 200;
     res_json := VObj [
       (lit "response",
        VStr (lit "Hi {{CUSTOMER_NAME}}," ++ nl ++ nl ++ continuation));
       (lit "citation", VStr (lit "s3://kb/shipping.pdf"));
       (lit "sessionId", VStr (lit "session-123-abc")) ] |}.

Definition plain : list (jsstring * value) :=
  [ (lit "question", VStr question) ].

Definition with_session : list (jsstring * value) :=
  [ (lit "question", VStr question);
    (lit "requestSessionId", VStr (lit "session-123-abc")) ].

Definition with_empty_session : list (jsstring * value) :=
  [ (lit "question", VStr question);
    (lit "requestSessionId", VStr []) ].

Definition padded : list (jsstring * value) :=
  [ (lit "question", VStr (lit "  When does my order ship?  ")) ].

Definition blank : list (jsstring * value) :=
  [ (lit "question", VStr (lit "   ")) ].

Definition turn (r c : jsstring) : value :=
  VObj [ (lit "role", VStr r); (lit "content", VStr c) ].

Definition with_empty_content : list (jsstring * value) :=
  [ (lit "question", VStr question);
    (lit "conversationHistory",
     VArr [ turn (lit "customer") (lit "I placed an order last week");
            turn (lit "agent") [] ]) ].

End Samples.

(** *** More sample requests, worlds and pages *)

Module MoreSamples.

Import Reference Samples.

Abbreviation State := (App.State (number:=number)).
Abbreviation Response := (Response (number:=number)).

Definition with_unknown_model : list (jsstring * value) :=
  [ (lit "question", VStr question);
    (lit "modelId", VStr (lit "amazon.titan-text-express-v1")) ].

Definition with_text_history : list (jsstring * value) :=
  [ (lit "question", VStr question);
    (lit "conversationHistory", VStr (lit "I placed an order last week")) ].

Definition with_unknown_role : list (jsstring * value) :=
  [ (lit "question", VStr question);
    (lit "conversationHistory",
     VArr [ turn (lit "customer") (lit "I placed an order last week");
            turn (lit "system") (lit "Answer in one line") ]) ].

Definition with_null_entry : list (jsstring * value) :=
  [ (lit "question", VStr question);
    (lit "conversationHistory", VArr [ VNull ]) ].

Definition with_own_model : list (jsstring * value) :=
  [ (lit "question", VStr question);
    (lit "modelId", VStr (lit "amazon.titan-text-express-v1")) ].

(** An upstream answer with a draft and no session. *)
Definition answered : list (jsstring * value) :=
  [ (lit "response",
     VStr (lit "Hi {{CUSTOMER_NAME}}," ++ nl ++ nl ++ continuation));
    (lit "citation", VStr (lit "s3://kb/shipping.pdf")) ].

Definition answered_response : Response :=
  {| status := 200;
     response_text := Ok (json_text (VObj answered));
     response_json := Ok (VObj answered) |}.

Definition answering : http_world := fun c => Ok answered_response.

(** An upstream answer of status 200 whose body is a page of HTML. *)
Definition unexpected_token : Error :=
  mkError (lit "Unexpected token '<', is not valid JSON").

Definition html_response : Response :=
  {| status := 200;
     response_text := Ok (lit "<html></html>");
     response_json := Throw unexpected_token |}.

Definition answering_html : http_world := fun c => Ok html_response.

(** An upstream answer of status 502 whose body cannot be read. *)
Definition terminated : Error := mkError (lit "terminated").

Definition cut_off : http_world :=
  fun c =>
    Ok {| status := 502;
          response_text := Throw terminated;
          response_json := Throw terminated |}.

(** A passage with no location. *)
Definition unfiled : RetrievalResult :=
  {| content := Some {| text := Some (lit "Orders ship within two business days.") |};
     location := None |}.

(** A passage of type [S3] whose location holds no address. *)
Definition misfiled : RetrievalResult :=
  {| content := Some {| text := Some (lit "Orders ship within two business days.") |};
     location :=
       Some {| type := Some (lit "S3");
               s3Location := None;
               webLocation := None |} |}.

Definition retrieving (results : list RetrievalResult) : aws_world :=
  fun c =>
    match c with
    | Retrieve _ => Ok {| retrievalResults := Some results |}
    | InvokeModel _ => Ok (completion continuation)
    end.

(** The model answers with the given document. *)
Definition replying (doc : list (jsstring * value)) : aws_world :=
  fun c =>
    match c with
    | Retrieve _ => Ok {| retrievalResults := Some [shipping; returns] |}
    | InvokeModel _ => Ok {| parsed_body := Ok (VObj doc) |}
    end.

Definition textless : list (jsstring * value) :=
  [ (lit "content", VArr [ VObj [ (lit "type", VStr (lit "text")) ] ]) ].

Definition haiku : value :=
  VObj [ (lit "modelName", VStr (lit "Claude 3 Haiku"));
         (lit "modelId",
          VStr (lit "anthropic.claude-3-haiku-20240307-v1:0")) ].

(** The page after the question has been typed. *)
Definition page : State :=
  {| App.history := [];
     App.selectedModel := haiku;
     App.baseUrl := lit "https://api.example.com/prod/";
     App.currentQuestion := VStr question;
     App.spinner := false;
     App.sessionId := VUndefined |}.

(** An answer of the deployed API with a session. *)
Definition in_session : list (jsstring * value) :=
  [ (lit "response",
     VStr (lit "Hi {{CUSTOMER_NAME}}," ++ nl ++ nl ++ continuation));
    (lit "citation", VStr (lit "s3://kb/shipping.pdf"));
    (lit "sessionId", VStr (lit "session-123-abc")) ].

Definition in_session_response : Response :=
  {| status := 200;
     response_text := Ok (json_text (VObj in_session));
     response_json := Ok (VObj in_session) |}.

Definition in_session_world : http_world := fun c => Ok in_session_response.

(** The answers expected of the orchestrator for a request without
    session when the first passage has no location, and when its
    location holds no address. *)
Definition drafted_uncited : LambdaResult (number:=number) :=
  {| statusCode := 200;
     body := VObj [
       (lit "response",
        VStr (lit "Hi {{CUSTOMER_NAME}}," ++ nl ++ nl ++ continuation));
       (lit "citation", VNull) ];
     headers := [ (lit "Access-Control-Allow-Origin", lit "*") ] |}.

Definition drafted_without_citation : LambdaResult (number:=number) :=
  {| statusCode := 200;
     body := VObj [
       (lit "response",
        VStr (lit "Hi {{CUSTOMER_NAME}}," ++ nl ++ nl ++ continuation)) ];
     headers := [ (lit "Access-Control-Allow-Origin", lit "*") ] |}.

(** The answer expected of the gateway when the upstream fails. *)
Definition unavailable : ExpressResponse (number:=number) :=
  {| res_status := 503;
     res_json := VObj [
       (lit "statusCode", VNum (num_of_nat 503));
       (lit "error", VStr (lit "Service Unavailable"));
       (lit "message",
        VStr (lit "Bedrock Knowledge Base temporarily unavailable")) ] |}.

End MoreSamples.

(* ================================================================== *)
(** ** Properties                                                      *)
(* ================================================================== *)

(** *** Strings *)

Lemma str_eqb_eq (a b : jsstring) : str_eqb a b = true <-> a = b.
Proof.
  revert b; induction a as [|x a IH]; intros [|y b]; simpl;
    try (split; [discriminate | discriminate]); try tauto.
  rewrite andb_true_iff, N.eqb_eq, IH.
  split; [intros [-> ->]; reflexivity | intros E; injection E; auto].
Qed.

Lemma starts_with_app (needle rest : jsstring) :
  starts_with (needle ++ rest) needle = true.
Proof.
  induction needle as [|c needle IH]; simpl; [reflexivity|].
  now rewrite N.eqb_refl, IH.
Qed.

Lemma includes_starts_with (s needle : jsstring) :
  starts_with s needle = true -> includes s needle = true.
Proof. intros H; destruct s; simpl in *; now rewrite H. Qed.

Lemma includes_app_r (before s needle : jsstring) :
  includes s needle = true -> includes (before ++ s) needle = true.
Proof.
  intros H; induction before as [|c before IH]; simpl; [exact H|].
  rewrite IH. apply orb_true_r.
Qed.

Lemma includes_infix (before needle rest : jsstring) :
  includes (before ++ needle ++ rest) needle = true.
Proof.
  apply includes_app_r, includes_starts_with, starts_with_app.
Qed.

Lemma trimStart_nil_iff (s : jsstring) :
  trimStart s = [] <-> forallb is_white_space s = true.
Proof.
  induction s as [|c s IH]; simpl; [tauto|].
  destruct (is_white_space c); simpl; [exact IH|].
  split; discriminate.
Qed.

Lemma trimStart_head (s : jsstring) (c : N) (t : jsstring) :
  trimStart s = c :: t -> is_white_space c = false.
Proof.
  induction s as [|x s IH]; simpl; [discriminate|].
  destruct (is_white_space x) eqn:W; [exact IH|].
  intros E; injection E as -> _; exact W.
Qed.

Lemma forallb_rev {A} (f : A -> bool) (l : list A) :
  forallb f (rev l) = forallb f l.
Proof.
  induction l as [|x l IH]; simpl; [reflexivity|].
  rewrite forallb_app, IH; simpl.
  rewrite andb_true_r. apply andb_comm.
Qed.

(** A string trims to the empty string exactly when it is made of
    white space. *)
Lemma trim_nil_iff (s : jsstring) :
  trim s = [] <-> forallb is_white_space s = true.
Proof.
  unfold trim, trimEnd. split.
  - intros H.
    assert (E : trimStart (rev (trimStart s)) = []).
    { apply (f_equal (@rev N)) in H. now rewrite rev_involutive in H. }
    apply trimStart_nil_iff in E. rewrite forallb_rev in E.
    destruct (trimStart s) as [|c t] eqn:T.
    + now apply trimStart_nil_iff.
    + apply trimStart_head in T. simpl in E. now rewrite T in E.
  - intros H. apply trimStart_nil_iff in H. now rewrite H.
Qed.

Section Properties.

Context {number : Type} {engine : Engine number}.

Abbreviation value := (value number).

(** *** The error envelopes, as they are sent *)

(** The status codes of the program are printed as they are. *)
Lemma JSON_stringify_error_body (code : nat) (error message : jsstring) :
  (Z.of_nat code < 2 ^ 53)%Z ->
  JSON_stringify (error_body code error message)
  = error_body code error message.
Proof.
  intros H. unfold error_body. cbn [JSON_stringify].
  now rewrite (num_json_of_nat code H).
Qed.

Lemma bad_request_sent (message : jsstring) :
  bad_request message =
  {| res_status := 400;
     res_json := error_body 400 (lit "Bad Request") message |}.
Proof.
  unfold bad_request, send. now rewrite JSON_stringify_error_body.
Qed.

Lemma service_unavailable_sent :
  service_unavailable =
  {| res_status := 503;
     res_json :=
       error_body 503 (lit "Service Unavailable")
         (lit "Bedrock Knowledge Base temporarily unavailable") |}.
Proof.
  unfold service_unavailable, send. now rewrite JSON_stringify_error_body.
Qed.

Lemma internal_server_error_sent :
  internal_server_error =
  {| res_status := 500;
     res_json :=
       error_body 500 (lit "Internal Server Error")
         (lit "Error invoking Bedrock model") |}.
Proof.
  unfold internal_server_error, send. now rewrite JSON_stringify_error_body.
Qed.

(** *** The handler, as a function of what the services answer *)

Lemma handler_run (env : Env) (aws : aws_world)
    (props : list (jsstring * value)) :
  let q := get_own props (lit "question") in
  let sid := get_own props (lit "requestSessionId") in
  let m := get_own props (lit "modelId") in
  let h := get_own props (lit "conversationHistory") in
  let retrieval := Retrieve (retrieveInput env q) in
  run aws (handler env (VObj props)) =
  match aws retrieval with
  | Throw e => ([retrieval], Ok (server_side_error e))
  | Ok retrieveResponse =>
      let context :=
        fst (context_and_citation (number:=number) retrieveResponse) in
      let citationUrl : value :=
        snd (context_and_citation retrieveResponse) in
      match userPrompt q h context with
      | Throw e => ([retrieval], Ok (server_side_error e))
      | Ok prompt =>
          let invocation :=
            InvokeModel
              (invokeInput (or_else m (VStr DEFAULT_MODEL)) prompt) in
          match aws invocation with
          | Throw e => ([retrieval; invocation], Ok (server_side_error e))
          | Ok invokeResponse =>
              match (g <- generatedText invokeResponse ;; fullEmail g) with
              | Throw e =>
                  ([retrieval; invocation], Ok (server_side_error e))
              | Ok email =>
                  ([retrieval; invocation],
                   Ok (makeResults 200 (VStr email) citationUrl sid))
              end
          end
      end
  end.
Proof.
  intros. unfold handler, draft. cbn [get and_then try_catch run fst snd].
  fold q sid m h. fold retrieval.
  destruct (aws retrieval) as [retrieveResponse|e]; cbn [and_then try_catch run fst snd];
    [|reflexivity].
  destruct (context_and_citation retrieveResponse) as [context citationUrl].
  cbn [fst snd].
  destruct (userPrompt q h context) as [prompt|e];
    cbn [and_then try_catch run fst snd]; [|reflexivity].
  destruct (aws (InvokeModel _)) as [invokeResponse|e];
    cbn [and_then try_catch run fst snd]; [|reflexivity].
  destruct (generatedText invokeResponse) as [g|e];
    cbn [and_then try_catch run fst snd bind_result]; [|reflexivity].
  destruct (fullEmail g) as [email|e];
    cbn [and_then try_catch run fst snd]; reflexivity.
Qed.


(** *** The route, as a function of what [fetch] answers *)

Lemma post_ai_draft_run (apiClient : BedrockApiClient) (w : http_world)
    (props : list (jsstring * value)) :
  let q := get_own props (lit "question") in
  let sid := get_own props (lit "requestSessionId") in
  let m := get_own props (lit "modelId") in
  let h := get_own props (lit "conversationHistory") in
  run w (post_ai_draft apiClient (VObj props)) =
  match validate q m h with
  | Throw e => ([], Ok (respond_to_error e))
  | Ok (Some refusal) => ([], Ok refusal)
  | Ok None =>
      match call_trim q with
      | Throw e => ([], Ok (respond_to_error e))
      | Ok trimmed =>
          let c := fetch_call apiClient (queryRequest trimmed sid m h) in
          ([c],
           Ok match (response <- w c ;; receive response) with
              | Throw e => respond_to_error e
              | Ok result => success result
              end)
      end
  end.
Proof.
  intros. unfold post_ai_draft, forward.
  cbn [get and_then try_catch run fst snd]. fold q sid m h.
  destruct (validate q m h) as [[refusal|]|e];
    cbn [and_then try_catch run fst snd]; try reflexivity.
  destruct (call_trim q) as [trimmed|e];
    cbn [and_then try_catch run fst snd]; [|reflexivity].
  unfold invokeQuery. cbn [bind_prog try_catch run fst snd].
  destruct (w (fetch_call _ _)) as [response|e];
    cbn [and_then bind_prog try_catch run fst snd bind_result];
    [|reflexivity].
  destruct (receive response);
    cbn [and_then bind_prog try_catch run fst snd]; reflexivity.
Qed.

(** *** The gateway refuses what it must *)

Lemma question_rejected_blank (question : value) :
  blank_question question -> question_rejected question = Ok true.
Proof.
  unfold question_rejected.
  destruct question as [| |b|n|s|l|p]; simpl; intros H;
    try reflexivity;
    try (now destruct b); try (now destruct (num_truthy n)).
  destruct s as [|c s]; [reflexivity|]. cbn [is_empty negb].
  apply trim_nil_iff in H. now rewrite H.
Qed.

Lemma question_rejected_accepted (question : value) (s : jsstring) :
  question_accepted question s ->
  question_rejected question = Ok false /\ call_trim question = Ok (trim s).
Proof.
  intros [-> Hs]. unfold question_rejected. simpl.
  destruct s as [|c s]; [now elim Hs|]. cbn [is_empty negb].
  destruct (trim (c :: s)); [now elim Hs|split; reflexivity].
Qed.

Lemma check_messages_accepted (before rest : list value) :
  forallb message_accepted before = true ->
  check_messages (before ++ rest) = check_messages rest.
Proof.
  induction before as [|msg before IH]; [reflexivity|].
  cbn [forallb app check_messages].
  intros H. apply andb_true_iff in H as [Hm Hb].
  destruct msg as [| | | | | |props]; try discriminate.
  unfold message_accepted in Hm.
  apply andb_true_iff in Hm as [Hm Hrole].
  apply andb_true_iff in Hm as [Hr Hc].
  unfold lacks_role_or_content. cbn [get bind_result].
  rewrite Hr. cbn [negb bind_result]. rewrite Hc. cbn [negb get bind_result].
  rewrite Hrole. cbn [negb]. now apply IH.
Qed.

Lemma check_messages_empty (msg : value) (rest : list value) :
  empty_role_or_content msg ->
  check_messages (msg :: rest) =
  Ok (Some (bad_request
    (lit "Each conversation message must have role and content"))).
Proof.
  intros (props & -> & H). cbn [check_messages].
  unfold lacks_role_or_content. cbn [get bind_result].
  destruct H as [H|H].
  - now rewrite H.
  - destruct (truthy (get_own props (lit "role"))); cbn [negb bind_result];
      [|reflexivity].
    now rewrite H.
Qed.

(** C7.  A request whose question is missing, is not a string, is empty
    or consists of white space only is answered 400 with a body
    [{ statusCode, error, message }], and nothing is forwarded to the
    orchestrator. *)
Theorem blank_question_is_refused (apiClient : BedrockApiClient)
    (w : http_world) (props : list (jsstring * value)) :
  blank_question (get_own props (lit "question")) ->
  calls w (post_ai_draft apiClient (VObj props)) = []
  /\ answer w (post_ai_draft apiClient (VObj props)) =
     Ok {| res_status := 400;
           res_json := VObj [
             (lit "statusCode", VNum (num_of_nat 400));
             (lit "error", VStr (lit "Bad Request"));
             (lit "message",
              VStr (lit "Missing required parameter: question")) ] |}.
Proof.
  intros H. unfold calls, answer. rewrite post_ai_draft_run.
  unfold validate. rewrite (question_rejected_blank _ H).
  cbn [bind_result]. rewrite bad_request_sent.
  split; reflexivity.
Qed.

(** C10.  In a request that is otherwise accepted (its question and
    model identifier pass, and the entries before it are accepted), a
    history entry whose role or content is the empty string is answered
    400 with the message that each conversation message must have role
    and content; nothing is forwarded. *)
Theorem empty_role_or_content_is_refused (apiClient : BedrockApiClient)
    (w : http_world) (props : list (jsstring * value)) (s : jsstring)
    (before after : list value) (msg : value) :
  question_accepted (get_own props (lit "question")) s ->
  model_accepted (get_own props (lit "modelId")) = true ->
  get_own props (lit "conversationHistory") = VArr (before ++ msg :: after) ->
  forallb message_accepted before = true ->
  empty_role_or_content msg ->
  calls w (post_ai_draft apiClient (VObj props)) = []
  /\ answer w (post_ai_draft apiClient (VObj props)) =
     Ok {| res_status := 400;
           res_json := VObj [
             (lit "statusCode", VNum (num_of_nat 400));
             (lit "error", VStr (lit "Bad Request"));
             (lit "message",
              VStr (lit "Each conversation message must have role and content")) ] |}.
Proof.
  intros Hq Hm Hh Hb He. unfold calls, answer. rewrite post_ai_draft_run.
  unfold validate.
  destruct (question_rejected_accepted _ _ Hq) as [-> _]. cbn [bind_result].
  unfold model_accepted in Hm.
  replace (truthy (get_own props (lit "modelId"))
           && negb (array_includes validModels (get_own props (lit "modelId"))))
    with false
    by (destruct (truthy _), (array_includes _ _); simpl in *; congruence).
  rewrite Hh. cbn [truthy isArray negb elements].
  rewrite (check_messages_accepted _ _ Hb), (check_messages_empty _ _ He).
  rewrite bad_request_sent.
  split; reflexivity.
Qed.

(** *** The orchestrator *)

Lemma history_lines_typed (msgs : list value) :
  forallb typed_message msgs = true ->
  exists lines, map_result history_line msgs = Ok lines.
Proof.
  induction msgs as [|msg msgs IH]; cbn [forallb map_result].
  - intros _. now exists [].
  - intros H. apply andb_true_iff in H as [Hm Hs].
    destruct (IH Hs) as [lines ->].
    destruct msg as [| | | | | |props]; try discriminate.
    unfold typed_message in Hm. unfold history_line. cbn [get bind_result].
    destruct (get_own props (lit "content")); try discriminate.
    cbn [to_string bind_result]. eauto.
Qed.

Lemma history_section_typed (conversationHistory : value) :
  typed_history conversationHistory = true ->
  exists section b,
    conversationHistorySection conversationHistory = Ok section
    /\ has_history conversationHistory = Ok b.
Proof.
  unfold conversationHistorySection, has_history.
  destruct conversationHistory as [| | | | |msgs|]; try discriminate;
    cbn [typed_history truthy length_gt_zero bind_result].
  - intros _. now exists [], false.
  - intros H. destruct (history_lines_typed _ H) as [lines Hl].
    destruct (negb (List.length msgs =? 0)).
    + cbn [call_map]. rewrite Hl. cbn [bind_result]. eauto.
    + eauto.
Qed.

(** A request typed as [QueryRequest] always gets its prompt. *)
Lemma userPrompt_typed (s : jsstring) (conversationHistory : value)
    (context : jsstring) :
  typed_history conversationHistory = true ->
  exists prompt,
    userPrompt (VStr s) conversationHistory context = Ok prompt
    /\ (context = [] -> includes prompt NO_KNOWLEDGE = true).
Proof.
  intros H. destruct (history_section_typed _ H) as (section & b & Hs & Hb).
  unfold userPrompt. rewrite Hs, Hb. cbn [bind_result to_string].
  destruct context as [|c context]; cbn [is_empty negb].
  - eexists; split; [reflexivity|]. intros _.
    do 8 apply includes_app_r.
    apply includes_starts_with, starts_with_app.
  - eexists; split; [reflexivity|]. discriminate.
Qed.

Lemma citation_of_source_location (passage : RetrievalResult) (u : jsstring) :
  source_location passage u -> citation_of (number:=number) passage = VStr u.
Proof.
  intros [loc s3 Hl Ht Hs Hu|loc web Hl Ht Hw Hu];
    unfold citation_of; rewrite Hl, Ht; cbn; [now rewrite Hs, Hu|].
  now rewrite Hw, Hu.
Qed.

(** C1, as the code has it.  When the retrieval call or the invocation
    call throws, the handler answers with status 500 and a body whose
    response is "Server side error: " followed by the message of the
    exception, with citation and sessionId null. *)
Theorem failure_is_answered_with_the_exception_message (env : Env)
    (aws : aws_world) (props : list (jsstring * value)) (e : Error) :
  aws (Retrieve (retrieveInput env (get_own props (lit "question")))) = Throw e
  \/ (exists input,
        In (InvokeModel input) (calls aws (handler env (VObj props)))
        /\ aws (InvokeModel input) = Throw e) ->
  answer aws (handler env (VObj props)) =
  Ok {| statusCode := 500;
        body := VObj [
          (lit "response", VStr (lit "Server side error: " ++ message e));
          (lit "citation", VNull);
          (lit "sessionId", VNull) ];
        headers := [ (lit "Access-Control-Allow-Origin", lit "*") ] |}.
Proof.
  unfold calls, answer. rewrite handler_run. cbv zeta.
  intros [H|(input & Hin & H)].
  - now rewrite H.
  - destruct (aws (Retrieve _)) as [retrieveResponse|e'];
      [|destruct Hin as [Hin|[]]; discriminate].
    destruct (userPrompt _ _ _) as [prompt|e'];
      [|destruct Hin as [Hin|[]]; discriminate].
    assert (E : InvokeModel input =
                InvokeModel (invokeInput
                  (or_else (get_own props (lit "modelId")) (VStr DEFAULT_MODEL))
                  prompt)).
    { destruct (aws (InvokeModel (invokeInput _ prompt))) as [r|e'];
        [destruct (_ <- generatedText r ;; _)|];
        cbn [fst] in Hin; destruct Hin as [Hin|[Hin|[]]];
        try discriminate; now symmetry. }
    injection E as ->. now rewrite H.
Qed.

(** C2.  When retrieval returns at least one passage and the draft
    succeeds, the citation of the response is the source location (the
    URI of the storage object or the URL of the web page) of the first
    passage, whatever passages follow it. *)
Theorem citation_is_the_first_passage_location (env : Env) (aws : aws_world)
    (props : list (jsstring * value)) (first : RetrievalResult)
    (rest : list RetrievalResult) (u : jsstring) (r : LambdaResult) :
  aws (Retrieve (retrieveInput env (get_own props (lit "question")))) =
    Ok {| retrievalResults := Some (first :: rest) |} ->
  source_location first u ->
  answer aws (handler env (VObj props)) = Ok r ->
  statusCode r = 200 ->
  field (body r) (lit "citation") = VStr u.
Proof.
  intros Hr Hu. unfold answer. rewrite handler_run. cbv zeta. rewrite Hr.
  cbn [context_and_citation retrievalResults fst snd].
  rewrite (citation_of_source_location _ _ Hu).
  destruct (userPrompt _ _ _) as [prompt|e];
    [|intros [= <-]; discriminate].
  destruct (aws (InvokeModel _)) as [invokeResponse|e];
    [|intros [= <-]; discriminate].
  destruct (_ <- generatedText invokeResponse ;; _) as [email|e];
    intros [= <-]; [reflexivity|discriminate].
Qed.

(** C3.  When retrieval returns no passage, the user turn sent to the
    model contains the sentence that the knowledge base holds nothing
    relevant, and the citation of the response is null. *)
Theorem no_passages_prompt_and_citation (env : Env) (aws : aws_world)
    (props : list (jsstring * value)) (s : jsstring)
    (retrieveResponse : RetrieveResponse) :
  get_own props (lit "question") = VStr s ->
  typed_history (get_own props (lit "conversationHistory")) = true ->
  aws (Retrieve (retrieveInput env (VStr s))) = Ok retrieveResponse ->
  no_passages retrieveResponse ->
  exists input prompt r,
    calls aws (handler env (VObj props)) =
      [Retrieve (retrieveInput env (VStr s)); InvokeModel input]
    /\ messages (invoke_body input) =
         [ {| role := lit "user"; message_content := prompt |};
           {| role := lit "assistant";
              message_content := lit "Hi {{CUSTOMER_NAME}}," |} ]
    /\ includes prompt
         (lit "The company knowledge base does not contain information relevant to this inquiry.")
       = true
    /\ answer aws (handler env (VObj props)) = Ok r
    /\ field (body r) (lit "citation") = VNull.
Proof.
  intros Hq Hh Hr Hn. unfold calls, answer. rewrite handler_run. cbv zeta.
  rewrite Hq, Hr.
  assert (E : context_and_citation (number:=number) retrieveResponse
              = ([], VNull)).
  { unfold context_and_citation. now destruct Hn as [-> | ->]. }
  rewrite E. cbn [fst snd].
  destruct (userPrompt_typed s _ [] Hh) as (prompt & -> & Hp).
  specialize (Hp eq_refl).
  eexists _, prompt.
  destruct (aws (InvokeModel _)) as [invokeResponse|e];
    [destruct (_ <- generatedText invokeResponse ;; _) as [email|e]|];
    eexists; repeat split; try reflexivity; exact Hp.
Qed.

(** C5.  The response text of a successful draft is the greeting
    [Hi {{CUSTOMER_NAME}},], a blank line, and the text the model
    generated: it is determined by what the model answered. *)
Theorem response_is_greeting_then_continuation (env : Env) (aws : aws_world)
    (props : list (jsstring * value)) (r : LambdaResult) :
  answer aws (handler env (VObj props)) = Ok r ->
  statusCode r = 200 ->
  exists input invokeResponse generated continuation,
    In (InvokeModel input) (calls aws (handler env (VObj props)))
    /\ aws (InvokeModel input) = Ok invokeResponse
    /\ generatedText invokeResponse = Ok generated
    /\ to_string generated = Ok continuation
    /\ field (body r) (lit "response") =
       VStr (lit "Hi {{CUSTOMER_NAME}}," ++ nl ++ nl ++ continuation).
Proof.
  unfold calls, answer. rewrite handler_run. cbv zeta.
  destruct (aws (Retrieve _)) as [retrieveResponse|e];
    [|intros [= <-]; discriminate].
  destruct (userPrompt _ _ _) as [prompt|e];
    [|intros [= <-]; discriminate].
  destruct (aws (InvokeModel _)) as [invokeResponse|e] eqn:Hi;
    [|intros [= <-]; discriminate].
  destruct (generatedText invokeResponse) as [generated|e] eqn:Hg;
    cbn [bind_result]; [|intros [= <-]; discriminate].
  unfold fullEmail.
  destruct (to_string generated) as [continuation|e] eqn:Ht;
    cbn [bind_result]; [intros [= <-] _|intros [= <-]; discriminate].
  eexists _, invokeResponse, generated, continuation.
  repeat split; try eassumption; try reflexivity.
  cbn [fst]. right. left. reflexivity.
Qed.

(** C9.  When the request names no model (its modelId is undefined,
    null or empty), the request goes on and the model invoked is
    [anthropic.claude-3-haiku-20240307-v1:0]. *)
Theorem absent_model_defaults_to_haiku (env : Env) (aws : aws_world)
    (props : list (jsstring * value)) (s : jsstring)
    (retrieveResponse : RetrieveResponse) :
  absent (get_own props (lit "modelId")) ->
  get_own props (lit "question") = VStr s ->
  typed_history (get_own props (lit "conversationHistory")) = true ->
  aws (Retrieve (retrieveInput env (VStr s))) = Ok retrieveResponse ->
  exists input,
    calls aws (handler env (VObj props)) =
      [Retrieve (retrieveInput env (VStr s)); InvokeModel input]
    /\ modelId input = VStr (lit "anthropic.claude-3-haiku-20240307-v1:0").
Proof.
  intros Hm Hq Hh Hr. unfold calls. rewrite handler_run. cbv zeta.
  rewrite Hq, Hr.
  destruct (userPrompt_typed s _
              (fst (context_and_citation (number:=number) retrieveResponse)) Hh)
    as (prompt & -> & _).
  assert (E : or_else (get_own props (lit "modelId")) (VStr DEFAULT_MODEL)
              = VStr DEFAULT_MODEL).
  { now destruct Hm as [-> | [-> | ->]]. }
  rewrite E.
  eexists.
  destruct (aws (InvokeModel _)) as [invokeResponse|e];
    [destruct (_ <- generatedText invokeResponse ;; _) as [email|e]|];
    split; reflexivity.
Qed.

(** *** JSON texts *)


(** Printing a JSON value and parsing the text gives the value back. *)
Lemma JSON_stringify_json (v : value) : json v -> JSON_stringify v = v.
Proof.
  induction v as [| | |n| |elems IH|props IH] using value_induction;
    try reflexivity.
  - cbn [json JSON_stringify]. now intros ->.
  - cbn [json JSON_stringify]. intros H. f_equal.
    induction IH as [|x l Hx _ IHl]; [reflexivity|].
    destruct H as [H1 H2].
    cbn [map]. rewrite (IHl H2). f_equal.
    destruct x; try contradiction; now apply Hx.
  - cbn [json JSON_stringify]. intros H. f_equal.
    induction IH as [|[k x] l Hx _ IHl]; [reflexivity|].
    destruct H as [H1 H2].
    rewrite (IHl H2). cbn [snd] in Hx.
    destruct x; try contradiction; now rewrite (Hx H1).
Qed.

Lemma as_received_json_property (v : value) :
  json_property v -> as_received v = v.
Proof.
  destruct v; try reflexivity; intros H; now apply JSON_stringify_json.
Qed.

Lemma get_own_absent (props : list (jsstring * value)) (key : jsstring) :
  has_own props key = false -> get_own props key = VUndefined.
Proof.
  induction props as [|[k v] props IH]; [reflexivity|].
  cbn [has_own existsb fst get_own]. intros H.
  apply orb_false_iff in H as [-> H]. now apply IH.
Qed.

Lemma field_stringified (props : list (jsstring * value)) (key : jsstring) :
  unique_keys props = true ->
  field (JSON_stringify (VObj props)) key = as_received (get_own props key).
Proof.
  cbn [JSON_stringify field].
  induction props as [|[k v] props IH]; [reflexivity|].
  cbn [unique_keys]. intros H. apply andb_true_iff in H as [Hk Hu].
  apply negb_true_iff in Hk. specialize (IH Hu). cbn [get_own].
  destruct (str_eqb k key) eqn:E.
  - apply str_eqb_eq in E as ->.
    destruct v; cbn [get_own as_received]; rewrite ?IH, ?(proj2 (str_eqb_eq _ _) eq_refl);
      try reflexivity.
    now rewrite (get_own_absent _ _ Hk).
  - destruct v; cbn [get_own]; rewrite ?E; exact IH.
Qed.

(** *** The gateway and what is behind it *)

Lemma check_messages_status (msgs : list value) (r : ExpressResponse) :
  check_messages msgs = Ok (Some r) -> res_status r = 400.
Proof.
  induction msgs as [|msg msgs IH]; cbn [check_messages]; [discriminate|].
  destruct (lacks_role_or_content msg) as [[|]|]; cbn [bind_result];
    try discriminate.
  - now intros [= <-].
  - destruct (get msg (lit "role")) as [role|]; cbn [bind_result];
      [|discriminate].
    destruct (negb (array_includes _ role)); [now intros [= <-]|exact IH].
Qed.

Lemma validate_status (question modelId conversationHistory : value)
    (r : ExpressResponse) :
  validate question modelId conversationHistory = Ok (Some r) ->
  res_status r = 400.
Proof.
  unfold validate.
  destruct (question_rejected question) as [[|]|]; cbn [bind_result];
    try discriminate.
  - now intros [= <-].
  - destruct (truthy modelId && _); [now intros [= <-]|].
    destruct (truthy conversationHistory); [|discriminate].
    destruct (negb (isArray conversationHistory)); [now intros [= <-]|].
    apply check_messages_status.
Qed.

Lemma respond_to_error_status (e : Error) :
  res_status (respond_to_error e) <> 200.
Proof.
  unfold respond_to_error.
  destruct (includes (message e) (lit "API Gateway")); discriminate.
Qed.

Lemma gateway_error_is_recognised (status : nat) (errorText : jsstring) :
  includes
    (lit "API Gateway returned status " ++ decimal status ++ lit ": "
     ++ errorText)
    (lit "API Gateway") = true.
Proof.
  apply includes_starts_with.
  exact (starts_with_app (lit "API Gateway")
           (lit " returned status " ++ decimal status ++ lit ": " ++ errorText)).
Qed.

(** C6, as the code has it.  A request that passes validation is
    forwarded once.  When the forwarded call comes back with a status
    that is not a success and the text of its body can be read, the
    gateway answers 503 with a generic message; when the call itself
    fails, or when reading the body of such an answer fails, the gateway
    answers 503 if the message of the error contains [API Gateway] and
    500 with a generic message otherwise. *)
Theorem upstream_failure_is_answered_503_or_500 (apiClient : BedrockApiClient)
    (w : http_world) (props : list (jsstring * value)) (s : jsstring) :
  let sid := get_own props (lit "requestSessionId") in
  let m := get_own props (lit "modelId") in
  let h := get_own props (lit "conversationHistory") in
  let c := fetch_call apiClient (queryRequest (trim s) sid m h) in
  let unavailable :=
    {| res_status := 503;
       res_json := VObj [
         (lit "statusCode", VNum (num_of_nat 503));
         (lit "error", VStr (lit "Service Unavailable"));
         (lit "message",
          VStr (lit "Bedrock Knowledge Base temporarily unavailable")) ] |} in
  let internal :=
    {| res_status := 500;
       res_json := VObj [
         (lit "statusCode", VNum (num_of_nat 500));
         (lit "error", VStr (lit "Internal Server Error"));
         (lit "message", VStr (lit "Error invoking Bedrock model")) ] |} in
  get_own props (lit "question") = VStr s ->
  validate (VStr s) m h = Ok None ->
  calls w (post_ai_draft apiClient (VObj props)) = [c]
  /\ (forall response errorText,
        w c = Ok response ->
        ok response = false ->
        response_text response = Ok errorText ->
        answer w (post_ai_draft apiClient (VObj props)) = Ok unavailable)
  /\ (forall response e,
        w c = Ok response ->
        ok response = false ->
        response_text response = Throw e ->
        answer w (post_ai_draft apiClient (VObj props)) =
        Ok (if includes (message e) (lit "API Gateway")
            then unavailable else internal))
  /\ (forall e,
        w c = Throw e ->
        answer w (post_ai_draft apiClient (VObj props)) =
        Ok (if includes (message e) (lit "API Gateway")
            then unavailable else internal)).
Proof.
  intros sid m h c unavailable internal Hq Hv.
  unfold calls, answer. rewrite post_ai_draft_run. cbv zeta.
  rewrite Hq. fold sid m h. rewrite Hv. cbn [call_trim]. fold c.
  split; [reflexivity|]. split; [|split].
  - intros response errorText -> Hok Ht. cbn [bind_result snd].
    unfold receive. rewrite Hok, Ht. cbn [negb bind_result].
    unfold respond_to_error. cbn [message].
    rewrite gateway_error_is_recognised.
    now rewrite service_unavailable_sent.
  - intros response e -> Hok Ht. cbn [bind_result snd].
    unfold receive. rewrite Hok, Ht. cbn [negb bind_result].
    unfold respond_to_error.
    rewrite service_unavailable_sent, internal_server_error_sent.
    now destruct (includes (message e) (lit "API Gateway")).
  - intros e ->. cbn [bind_result snd]. unfold respond_to_error.
    rewrite service_unavailable_sent, internal_server_error_sent.
    now destruct (includes (message e) (lit "API Gateway")).
Qed.

Lemma handler_first_call (env : Env) (aws : aws_world)
    (props : list (jsstring * value)) :
  exists rest,
    calls aws (handler env (VObj props)) =
    Retrieve (retrieveInput env (get_own props (lit "question"))) :: rest.
Proof.
  unfold calls. rewrite handler_run. cbv zeta.
  destruct (aws (Retrieve _)) as [retrieveResponse|e]; [|now eexists].
  destruct (userPrompt _ _ _) as [prompt|e]; [|now eexists].
  destruct (aws (InvokeModel _)) as [invokeResponse|e]; [|now eexists].
  destruct (_ <- generatedText invokeResponse ;; _); now eexists.
Qed.

Lemma handler_answer_cases (env : Env) (aws : aws_world)
    (props : list (jsstring * value)) :
  (exists e, answer aws (handler env (VObj props)) = Ok (server_side_error e))
  \/ (exists email citationUrl,
        answer aws (handler env (VObj props)) =
        Ok (makeResults 200 (VStr email) citationUrl
              (get_own props (lit "requestSessionId")))).
Proof.
  unfold answer. rewrite handler_run. cbv zeta.
  destruct (aws (Retrieve _)) as [retrieveResponse|e]; [|left; now eexists].
  destruct (userPrompt _ _ _) as [prompt|e]; [|left; now eexists].
  destruct (aws (InvokeModel _)) as [invokeResponse|e]; [|left; now eexists].
  destruct (_ <- generatedText invokeResponse ;; _);
    [right; now eexists _, _|left; now eexists].
Qed.

(** What the orchestrator reads in the body the gateway forwards. *)
Lemma forwarded_body (trimmed : jsstring) (sid m h : value) :
  exists props,
    JSON_stringify (queryRequest trimmed sid m h) = VObj props
    /\ get_own props (lit "question") = VStr trimmed
    /\ get_own props (lit "requestSessionId") = as_received sid.
Proof.
  eexists. split; [reflexivity|].
  split.
  - exact (field_stringified
             [ (lit "question", VStr trimmed); (lit "requestSessionId", sid);
               (lit "modelId", m); (lit "conversationHistory", h) ]
             (lit "question") eq_refl).
  - exact (field_stringified
             [ (lit "question", VStr trimmed); (lit "requestSessionId", sid);
               (lit "modelId", m); (lit "conversationHistory", h) ]
             (lit "requestSessionId") eq_refl).
Qed.

(** C8, as the code has it.  The first call of the orchestrator is the
    retrieval, made with the question exactly as the orchestrator
    received it and asking for five passages; a request that comes
    through the gateway reaches the orchestrator, and the retriever,
    with its question trimmed of leading and trailing white space. *)
Theorem retrieval_uses_the_question_as_received (env : Env) (aws : aws_world)
    (props : list (jsstring * value)) :
  (exists rest,
     calls aws (handler env (VObj props)) =
     Retrieve {| knowledgeBaseId := KNOWLEDGE_BASE_ID env;
                 retrievalQuery_text := get_own props (lit "question");
                 numberOfResults := 5 |} :: rest)
  /\ (forall (apiClient : BedrockApiClient) (s : jsstring),
        get_own props (lit "question") = VStr s ->
        validate (VStr s) (get_own props (lit "modelId"))
          (get_own props (lit "conversationHistory")) = Ok None ->
        exists rest,
          fst (deployed env aws apiClient (VObj props)) =
          Retrieve {| knowledgeBaseId := KNOWLEDGE_BASE_ID env;
                      retrievalQuery_text := VStr (trim s);
                      numberOfResults := 5 |} :: rest).
Proof.
  split; [apply handler_first_call|].
  intros apiClient s Hq Hv. unfold deployed. cbn [fst].
  rewrite post_ai_draft_run. cbv zeta. rewrite Hq, Hv.
  cbn [call_trim fst lambda_calls flat_map fetch_call request_body].
  destruct (forwarded_body (trim s)
              (get_own props (lit "requestSessionId"))
              (get_own props (lit "modelId"))
              (get_own props (lit "conversationHistory")))
    as (props' & -> & Hq' & _).
  destruct (handler_first_call env aws props') as [rest ->].
  rewrite Hq'. rewrite app_nil_r. now exists rest.
Qed.

(** C4, as the code has it.  In every response with status 200, the
    sessionId is the requestSessionId of the request when that is a
    non-empty string (or any other true JSON value that is printed as
    it is), and null when none was supplied or when it is the empty
    string (or any other false value).  A requestSessionId that is a
    number is printed three times on the way, so the statement is
    about the values [json] that printing leaves as they are. *)
Theorem session_id_is_echoed_unless_false (env : Env) (aws : aws_world)
    (apiClient : BedrockApiClient) (props : list (jsstring * value))
    (r : ExpressResponse) :
  let sid := get_own props (lit "requestSessionId") in
  json_property sid ->
  snd (deployed env aws apiClient (VObj props)) = Ok r ->
  res_status r = 200 ->
  field (res_json r) (lit "sessionId") = if truthy sid then sid else VNull.
Proof.
  intros sid Hj. unfold deployed. cbn [snd].
  rewrite post_ai_draft_run. cbv zeta. fold sid.
  destruct (validate _ _ _) as [[refusal|]|e] eqn:Hv; cbn [snd].
  - intros [= <-] Hs. apply validate_status in Hv. congruence.
  - destruct (call_trim _) as [trimmed|e]; cbn [snd].
    + cbn [lambda_proxy fetch_call request_body].
      destruct (forwarded_body trimmed sid
                  (get_own props (lit "modelId"))
                  (get_own props (lit "conversationHistory")))
        as (props' & -> & _ & Hsid).
      rewrite (as_received_json_property _ Hj) in Hsid.
      destruct (handler_answer_cases env aws props')
        as [[e ->]|(email & citationUrl & ->)].
      * cbn [bind_result]. unfold receive. cbn [ok status server_side_error
          makeResults statusCode Nat.leb andb negb response_text bind_result].
        intros [= <-] Hs. now apply respond_to_error_status in Hs.
      * rewrite Hsid. cbn [bind_result]. unfold receive.
        cbn [ok status makeResults statusCode negb response_json
             bind_result body].
        change (Nat.leb 200 200 && Nat.leb 200 299) with true. cbn [negb].
        set (doc := [ (lit "response", VStr email);
                      (lit "citation", citationUrl);
                      (lit "sessionId", sid) ]).
        assert (Hd : exists fields, JSON_stringify (VObj doc) = VObj fields
                      /\ get_own fields (lit "sessionId") = sid).
        { eexists. split; [reflexivity|].
          transitivity (as_received sid);
            [exact (field_stringified doc (lit "sessionId") eq_refl)|].
          now apply as_received_json_property. }
        destruct Hd as (fields & -> & Hf).
        cbn [get bind_result]. rewrite Hf.
        intros [= <-] _. unfold success, send.
        cbn [res_json response citation sessionId].
        match goal with
        | |- field (JSON_stringify (VObj ?l)) _ = _ =>
            rewrite (field_stringified l (lit "sessionId") eq_refl)
        end.
        cbn [get_own str_eqb lit list_ascii_of_string map N_of_ascii].
        unfold or_else.
        apply as_received_json_property.
        destruct (truthy sid) eqn:T; [|reflexivity].
        destruct sid; try discriminate; exact Hj.
    + intros [= <-] Hs. now apply respond_to_error_status in Hs.
  - intros [= <-] Hs. now apply respond_to_error_status in Hs.
Qed.

End Properties.

(* ================================================================== *)
(** ** Further properties of the gateway                               *)
(* ================================================================== *)

Section GatewayProperties.

Context {number : Type} {engine : Engine number}.

Abbreviation value := (value number).

Lemma post_ai_draft_of_body (apiClient : BedrockApiClient) (body : value) :
  body <> VUndefined -> body <> VNull ->
  post_ai_draft apiClient body =
  post_ai_draft apiClient (VObj (own_properties body)).
Proof. destruct body; intros H1 H2; try reflexivity; congruence. Qed.

Lemma post_ai_draft_of_nullish (apiClient : BedrockApiClient) (w : http_world)
    (body : value) :
  body = VUndefined \/ body = VNull ->
  exists e,
    run w (post_ai_draft apiClient body) = ([], Ok (respond_to_error e)).
Proof. intros [-> | ->]; eexists; reflexivity. Qed.

Lemma check_messages_shape (msgs : list value) (r : ExpressResponse) :
  check_messages msgs = Ok (Some r) -> exists m, r = bad_request m.
Proof.
  induction msgs as [|msg msgs IH]; cbn [check_messages]; [discriminate|].
  destruct (lacks_role_or_content msg) as [[|]|]; cbn [bind_result];
    try discriminate.
  - intros [= <-]. now eexists.
  - destruct (get msg (lit "role")) as [role|]; cbn [bind_result];
      [|discriminate].
    destruct (negb (array_includes _ role)); [|exact IH].
    intros [= <-]. now eexists.
Qed.

Lemma validate_shape (question modelId conversationHistory : value)
    (r : ExpressResponse) :
  validate question modelId conversationHistory = Ok (Some r) ->
  exists m, r = bad_request m.
Proof.
  unfold validate.
  destruct (question_rejected question) as [[|]|]; cbn [bind_result];
    try discriminate.
  - intros [= <-]. now eexists.
  - destruct (truthy modelId && _); [intros [= <-]; now eexists|].
    destruct (truthy conversationHistory); [|discriminate].
    destruct (negb (isArray conversationHistory));
      [intros [= <-]; now eexists|].
    apply check_messages_shape.
Qed.

Lemma validate_passes (question modelId conversationHistory : value) :
  validate question modelId conversationHistory = Ok None ->
  exists s, question = VStr s /\ trim s <> [].
Proof.
  unfold validate, question_rejected.
  destruct question as [| |b|n|s|l|p]; cbn [truthy negb typeof_string bind_result];
    try discriminate;
    try (destruct b; discriminate);
    try (destruct (num_truthy n); discriminate).
  destruct s as [|c s]; cbn [is_empty negb call_trim bind_result];
    [discriminate|].
  destruct (trim (c :: s)) eqn:T; cbn [List.length Nat.eqb]; [discriminate|].
  intros _. exists (c :: s). split; [reflexivity|]. now rewrite T.
Qed.

Lemma respond_to_error_envelope (e : Error) :
  respond_to_error e =
    envelope 503 (lit "Service Unavailable")
      (lit "Bedrock Knowledge Base temporarily unavailable")
  \/ respond_to_error e =
    envelope 500 (lit "Internal Server Error")
      (lit "Error invoking Bedrock model").
Proof.
  unfold respond_to_error.
  rewrite service_unavailable_sent, internal_server_error_sent.
  destruct (includes _ _); [left|right]; reflexivity.
Qed.

(** X1.  A request whose question passes and whose modelId is given but
    is not one of the three known models is answered 400 with the list
    of the known models, and nothing is forwarded. *)
Theorem unknown_model_is_refused (apiClient : BedrockApiClient)
    (w : http_world) (props : list (jsstring * value)) (s : jsstring) :
  question_accepted (get_own props (lit "question")) s ->
  truthy (get_own props (lit "modelId")) = true ->
  array_includes validModels (get_own props (lit "modelId")) = false ->
  calls w (post_ai_draft apiClient (VObj props)) = []
  /\ answer w (post_ai_draft apiClient (VObj props)) =
     Ok (envelope 400 (lit "Bad Request")
           (lit "Invalid modelId. Must be one of: anthropic.claude-3-haiku-20240307-v1:0, anthropic.claude-3-sonnet-20240229-v1:0, anthropic.claude-3-opus-20240229-v1:0")).
Proof.
  intros Hq Ht Hm. unfold calls, answer. rewrite post_ai_draft_run.
  unfold validate.
  destruct (question_rejected_accepted _ _ Hq) as [-> _]. cbn [bind_result].
  rewrite Ht, Hm. cbn [negb andb]. rewrite bad_request_sent.
  split; reflexivity.
Qed.

(** X2.  A request that passes the checks of question and modelId and
    whose conversationHistory is given but is not an array is answered
    400, and nothing is forwarded. *)
Theorem history_that_is_no_array_is_refused (apiClient : BedrockApiClient)
    (w : http_world) (props : list (jsstring * value)) (s : jsstring) :
  question_accepted (get_own props (lit "question")) s ->
  model_accepted (get_own props (lit "modelId")) = true ->
  truthy (get_own props (lit "conversationHistory")) = true ->
  isArray (get_own props (lit "conversationHistory")) = false ->
  calls w (post_ai_draft apiClient (VObj props)) = []
  /\ answer w (post_ai_draft apiClient (VObj props)) =
     Ok (envelope 400 (lit "Bad Request")
           (lit "conversationHistory must be an array")).
Proof.
  intros Hq Hm Ht Ha. unfold calls, answer. rewrite post_ai_draft_run.
  unfold validate.
  destruct (question_rejected_accepted _ _ Hq) as [-> _]. cbn [bind_result].
  unfold model_accepted in Hm.
  replace (truthy (get_own props (lit "modelId"))
           && negb (array_includes validModels (get_own props (lit "modelId"))))
    with false
    by (destruct (truthy _), (array_includes _ _); simpl in *; congruence).
  rewrite Ht, Ha. cbn [negb]. rewrite bad_request_sent.
  split; reflexivity.
Qed.

(** X3.  In a request that is otherwise accepted, a history entry that
    has a role and a content but whose role is neither [customer] nor
    [agent] is answered 400 with the message that names the two roles;
    nothing is forwarded. *)
Theorem unknown_role_is_refused (apiClient : BedrockApiClient)
    (w : http_world) (props : list (jsstring * value)) (s : jsstring)
    (before after : list value) (entry : list (jsstring * value)) :
  question_accepted (get_own props (lit "question")) s ->
  model_accepted (get_own props (lit "modelId")) = true ->
  get_own props (lit "conversationHistory")
    = VArr (before ++ VObj entry :: after) ->
  forallb message_accepted before = true ->
  truthy (get_own entry (lit "role")) = true ->
  truthy (get_own entry (lit "content")) = true ->
  array_includes [lit "customer"; lit "agent"] (get_own entry (lit "role"))
    = false ->
  calls w (post_ai_draft apiClient (VObj props)) = []
  /\ answer w (post_ai_draft apiClient (VObj props)) =
     Ok (envelope 400 (lit "Bad Request")
           (lit "Message role must be either " ++ dq ++ lit "customer" ++ dq
            ++ lit " or " ++ dq ++ lit "agent" ++ dq)).
Proof.
  intros Hq Hm Hh Hb Hr Hc Hn. unfold calls, answer.
  rewrite post_ai_draft_run. unfold validate.
  destruct (question_rejected_accepted _ _ Hq) as [-> _]. cbn [bind_result].
  unfold model_accepted in Hm.
  replace (truthy (get_own props (lit "modelId"))
           && negb (array_includes validModels (get_own props (lit "modelId"))))
    with false
    by (destruct (truthy _), (array_includes _ _); simpl in *; congruence).
  rewrite Hh. cbn [truthy isArray negb elements].
  rewrite (check_messages_accepted _ _ Hb). cbn [check_messages].
  unfold lacks_role_or_content. cbn [get bind_result].
  rewrite Hr. cbn [negb bind_result]. rewrite Hc. cbn [negb get bind_result].
  rewrite Hn. cbn [negb]. rewrite bad_request_sent.
  split; reflexivity.
Qed.

(** X4.  In a request that is otherwise accepted, a history entry that
    is [null] makes the validation throw: nothing is forwarded and the
    [catch] block answers, with the generic 500 unless the message of
    the engine's error contains [API Gateway]. *)
Theorem null_entry_is_answered_by_the_catch_block
    (apiClient : BedrockApiClient)
    (w : http_world) (props : list (jsstring * value)) (s : jsstring)
    (before after : list value) :
  question_accepted (get_own props (lit "question")) s ->
  model_accepted (get_own props (lit "modelId")) = true ->
  get_own props (lit "conversationHistory")
    = VArr (before ++ VNull :: after) ->
  forallb message_accepted before = true ->
  includes (fault_message (ReadOfNullish true (lit "role")))
    (lit "API Gateway") = false ->
  calls w (post_ai_draft apiClient (VObj props)) = []
  /\ answer w (post_ai_draft apiClient (VObj props)) =
     Ok (envelope 500 (lit "Internal Server Error")
           (lit "Error invoking Bedrock model")).
Proof.
  intros Hq Hm Hh Hb Hf. unfold calls, answer.
  rewrite post_ai_draft_run. unfold validate.
  destruct (question_rejected_accepted _ _ Hq) as [-> _]. cbn [bind_result].
  unfold model_accepted in Hm.
  replace (truthy (get_own props (lit "modelId"))
           && negb (array_includes validModels (get_own props (lit "modelId"))))
    with false
    by (destruct (truthy _), (array_includes _ _); simpl in *; congruence).
  rewrite Hh. cbn [truthy isArray negb elements].
  rewrite (check_messages_accepted _ _ Hb). cbn [check_messages].
  unfold lacks_role_or_content. cbn [get bind_result fst snd].
  unfold respond_to_error, type_error. cbn [message]. rewrite Hf.
  rewrite internal_server_error_sent.
  split; reflexivity.
Qed.

(** *** Trimming *)

Lemma trimStart_keeps_last (a : jsstring) (c : N) :
  is_white_space c = false ->
  exists x, trimStart (a ++ [c]) = x ++ [c].
Proof.
  intros Hc. induction a as [|d a [x IH]]; cbn [app trimStart].
  - rewrite Hc. now exists [].
  - destruct (is_white_space d); [now exists x|].
    now exists (d :: a).
Qed.

Lemma trim_has_no_outer_white_space (s : jsstring) :
  no_outer_white_space (trim s).
Proof.
  unfold trim, trimEnd. split.
  - intros c rest H.
    destruct (trimStart s) as [|d u] eqn:T.
    + discriminate.
    + pose proof (trimStart_head _ _ _ T) as Hd.
      cbn [rev] in H.
      destruct (trimStart_keeps_last (rev u) d Hd) as [x Hx].
      rewrite Hx, rev_app_distr in H. cbn [rev app] in H.
      injection H as <- _. exact Hd.
  - intros init c H.
    apply (f_equal (@rev N)) in H.
    rewrite rev_involutive, rev_app_distr in H. cbn [rev app] in H.
    exact (trimStart_head _ _ _ H).
Qed.

(** *** What the route does for every body *)

Lemma value_nullish_dec (v : value) :
  (v = VUndefined \/ v = VNull) \/ (v <> VUndefined /\ v <> VNull).
Proof. destruct v; (left; tauto) || (right; split; discriminate). Qed.

Lemma route_run_cases (apiClient : BedrockApiClient) (w : http_world)
    (body : value) :
  (exists e, run w (post_ai_draft apiClient body)
             = ([], Ok (respond_to_error e)))
  \/ (exists m, run w (post_ai_draft apiClient body)
                = ([], Ok (bad_request m)))
  \/ (exists c e, run w (post_ai_draft apiClient body)
                  = ([c], Ok (respond_to_error e)))
  \/ (exists c result, run w (post_ai_draft apiClient body)
                       = ([c], Ok (success result))).
Proof.
  destruct (value_nullish_dec body) as [Hn|[H1 H2]].
  - left. now apply post_ai_draft_of_nullish.
  - rewrite (post_ai_draft_of_body _ _ H1 H2), post_ai_draft_run. cbv zeta.
    destruct (validate _ _ _) as [[refusal|]|e] eqn:Hv.
    + right. left. apply validate_shape in Hv as [m ->]. now exists m.
    + destruct (call_trim _) as [trimmed|e]; [|left; now exists e].
      right. right.
      destruct (_ <- w _ ;; receive _) as [result|e];
        [right; now eexists _, _|left; now eexists _, _].
    + left. now exists e.
Qed.

(** X5.  Whatever the body and whatever the upstream does, the route
    answers: with status 200, 400, 500 or 503, and, when the status is
    not 200, with the envelope [{ statusCode, error, message }] whose
    statusCode is the status of the response. *)
Theorem route_always_answers_with_an_envelope (apiClient : BedrockApiClient)
    (w : http_world) (body : value) :
  exists r,
    answer w (post_ai_draft apiClient body) = Ok r
    /\ (res_status r = 200 \/ res_status r = 400
        \/ res_status r = 500 \/ res_status r = 503)
    /\ (res_status r <> 200 ->
        exists error message,
          r = envelope (res_status r) error message).
Proof.
  unfold answer.
  destruct (route_run_cases apiClient w body)
    as [[e ->]|[[m ->]|[(c & e & ->)|(c & result & ->)]]]; cbn [snd];
    eexists; (split; [reflexivity|]).
  - destruct (respond_to_error_envelope e) as [-> | ->];
      (split; [cbn; tauto|intros _; now eexists _, _]).
  - rewrite bad_request_sent.
    split; [cbn; tauto|intros _; now eexists _, _].
  - destruct (respond_to_error_envelope e) as [-> | ->];
      (split; [cbn; tauto|intros _; now eexists _, _]).
  - split; [cbn; tauto|]. intros H. now elim H.
Qed.

(** X6.  The route calls the upstream at most once for a request; a
    request answered 400 was not forwarded at all, and a request
    answered 200 was forwarded exactly once. *)
Theorem route_forwards_at_most_once (apiClient : BedrockApiClient)
    (w : http_world) (body : value) (r : ExpressResponse) :
  answer w (post_ai_draft apiClient body) = Ok r ->
  List.length (calls w (post_ai_draft apiClient body)) <= 1
  /\ (res_status r = 400 -> calls w (post_ai_draft apiClient body) = [])
  /\ (res_status r = 200 ->
      List.length (calls w (post_ai_draft apiClient body)) = 1).
Proof.
  unfold answer, calls.
  destruct (route_run_cases apiClient w body)
    as [[e ->]|[[m ->]|[(c & e & ->)|(c & result & ->)]]]; cbn [fst snd];
    intros [= <-]; cbn [List.length].
  - split; [lia|]. split; [reflexivity|].
    intros H. now apply respond_to_error_status in H.
  - split; [lia|]. split; [reflexivity|]. discriminate.
  - split; [lia|]. split; [|reflexivity].
    intros H. destruct (respond_to_error_envelope e) as [E|E];
      rewrite E in H; discriminate.
  - split; [lia|]. split; [discriminate|reflexivity].
Qed.

(** *** The request forwarded and the answer relayed *)

(** X7.  The request forwarded for an accepted request is a POST of a
    JSON body to the path [/ai-draft] under the configured URL; its
    question is the question supplied with the white space around it
    removed, and is not empty; the session, the model and the history
    are forwarded as they were supplied, when they are absent or are
    JSON values that [JSON.stringify] prints as they are (an infinite
    number would be forwarded as [null]). *)
Theorem forwarded_request_carries_the_trimmed_question
    (apiClient : BedrockApiClient) (w : http_world)
    (props : list (jsstring * value)) (s : jsstring) :
  let sid := get_own props (lit "requestSessionId") in
  let m := get_own props (lit "modelId") in
  let h := get_own props (lit "conversationHistory") in
  get_own props (lit "question") = VStr s ->
  validate (VStr s) m h = Ok None ->
  json_property sid ->
  json_property m ->
  json_property h ->
  exists init,
    calls w (post_ai_draft apiClient (VObj props)) =
      [Fetch (apiGatewayUrl apiClient ++ lit "/ai-draft") init]
    /\ method init = lit "POST"
    /\ request_headers init =
         [ (lit "Content-Type", lit "application/json") ]
    /\ field (request_body init) (lit "question") = VStr (trim s)
    /\ trim s <> []
    /\ no_outer_white_space (trim s)
    /\ field (request_body init) (lit "requestSessionId") = sid
    /\ field (request_body init) (lit "modelId") = m
    /\ field (request_body init) (lit "conversationHistory") = h.
Proof.
  intros sid m h Hq Hv Hs Hm Hh.
  unfold calls. rewrite post_ai_draft_run. cbv zeta.
  rewrite Hq. fold sid m h. rewrite Hv. cbn [call_trim fst].
  destruct (validate_passes _ _ _ Hv) as (s' & [= <-] & Ht).
  eexists. split; [reflexivity|]. cbn [method request_headers request_body].
  unfold queryRequest.
  repeat split; try reflexivity; try exact Ht;
    try apply trim_has_no_outer_white_space;
    match goal with
    | |- field (JSON_stringify (VObj ?l)) ?k = ?rhs =>
        rewrite (field_stringified l k eq_refl);
        change (as_received rhs = rhs);
        now apply as_received_json_property
    end.
Qed.

(** X8.  When the upstream answers an accepted request with a success
    status and a JSON object, the route answers 200 with the response
    of that object, and with its citation and its sessionId where they
    count as true and [null] where they are missing or count as
    false; the three are JSON values that [JSON.stringify] prints as
    they are (an infinite number would be answered as [null]). *)
Theorem upstream_answer_is_relayed (apiClient : BedrockApiClient)
    (w : http_world) (props data : list (jsstring * value)) (s : jsstring)
    (upstream : Response) :
  let sid := get_own props (lit "requestSessionId") in
  let m := get_own props (lit "modelId") in
  let h := get_own props (lit "conversationHistory") in
  get_own props (lit "question") = VStr s ->
  validate (VStr s) m h = Ok None ->
  w (fetch_call apiClient (queryRequest (trim s) sid m h)) = Ok upstream ->
  ok upstream = true ->
  response_json upstream = Ok (VObj data) ->
  json_property (get_own data (lit "response")) ->
  json_property (get_own data (lit "citation")) ->
  json_property (get_own data (lit "sessionId")) ->
  exists r,
    answer w (post_ai_draft apiClient (VObj props)) = Ok r
    /\ res_status r = 200
    /\ field (res_json r) (lit "response") = get_own data (lit "response")
    /\ field (res_json r) (lit "citation") =
       (if truthy (get_own data (lit "citation"))
        then get_own data (lit "citation") else VNull)
    /\ field (res_json r) (lit "sessionId") =
       (if truthy (get_own data (lit "sessionId"))
        then get_own data (lit "sessionId") else VNull).
Proof.
  intros sid m h Hq Hv Hw Hok Hj Hr Hc Hs.
  unfold answer. rewrite post_ai_draft_run. cbv zeta.
  rewrite Hq. fold sid m h. rewrite Hv. cbn [call_trim snd].
  rewrite Hw. cbn [bind_result]. unfold receive. rewrite Hok, Hj.
  cbn [negb bind_result get].
  eexists. split; [reflexivity|]. split; [reflexivity|].
  unfold success, send. cbn [res_json response citation sessionId].
  assert (Hn : forall v : value,
             json_property v -> json_property (or_else v VNull)).
  { intros v Hv'. unfold or_else.
    destruct (truthy v) eqn:T; [exact Hv'|exact I]. }
  repeat split;
    match goal with
    | |- field (JSON_stringify (VObj ?l)) ?k = ?rhs =>
        rewrite (field_stringified l k eq_refl);
        change (as_received rhs = rhs);
        apply as_received_json_property
    end.
  - exact Hr.
  - exact (Hn _ Hc).
  - exact (Hn _ Hs).
Qed.

(** X9.  When the upstream answers an accepted request with a success
    status but its body is no JSON text, or is the JSON text [null], the
    route has forwarded once and answers through its [catch] block: 500
    with the generic message, unless the message of the error contains
    [API Gateway]. *)
Theorem unreadable_upstream_answer_is_answered_by_the_catch_block
    (apiClient : BedrockApiClient) (w : http_world)
    (props : list (jsstring * value)) (s : jsstring)
    (upstream : Response) (e : Error) :
  let sid := get_own props (lit "requestSessionId") in
  let m := get_own props (lit "modelId") in
  let h := get_own props (lit "conversationHistory") in
  let c := fetch_call apiClient (queryRequest (trim s) sid m h) in
  get_own props (lit "question") = VStr s ->
  validate (VStr s) m h = Ok None ->
  w c = Ok upstream ->
  ok upstream = true ->
  (response_json upstream = Throw e
   \/ (response_json upstream = Ok VNull
       /\ e = type_error (ReadOfNullish true (lit "response")))) ->
  includes (message e) (lit "API Gateway") = false ->
  calls w (post_ai_draft apiClient (VObj props)) = [c]
  /\ answer w (post_ai_draft apiClient (VObj props)) =
     Ok (envelope 500 (lit "Internal Server Error")
           (lit "Error invoking Bedrock model")).
Proof.
  intros sid m h c Hq Hv Hw Hok Hj Hi.
  unfold calls, answer. rewrite post_ai_draft_run. cbv zeta.
  rewrite Hq. fold sid m h. rewrite Hv. cbn [call_trim fst snd]. fold c.
  split; [reflexivity|].
  rewrite Hw. cbn [bind_result]. unfold receive. rewrite Hok.
  cbn [negb].
  destruct Hj as [-> | [-> ->]]; cbn [bind_result get];
    unfold respond_to_error; rewrite Hi;
    rewrite internal_server_error_sent; reflexivity.
Qed.

(** *** The client *)

Lemma strip_trailing_slash_added (u : jsstring) :
  strip_trailing_slash (u ++ lit "/") = u.
Proof.
  unfold strip_trailing_slash. cbn [lit list_ascii_of_string map N_of_ascii].
  rewrite rev_app_distr. cbn [rev app]. apply rev_involutive.
Qed.

Lemma strip_trailing_slash_none (u : jsstring) :
  ends_with_slash u = false -> strip_trailing_slash u = u.
Proof.
  unfold ends_with_slash, strip_trailing_slash.
  destruct (rev u) as [|c r]; [reflexivity|].
  destruct c as [|p]; [reflexivity|].
  destruct (Pos.eq_dec p 47) as [-> | Hp]; [discriminate|].
  intros _.
  repeat (destruct p as [p|p|]; try reflexivity; try (now elim Hp)).
Qed.

(** X10.  The client is the same whether the configured URL ends with a
    slash or not: the request goes to the URL without that slash,
    followed by [/ai-draft].  Only one slash is removed. *)
Theorem trailing_slash_of_the_url_is_dropped (u : jsstring) (request : value) :
  ends_with_slash u = false ->
  fetch_call (new_BedrockApiClient (u ++ lit "/")) request
    = fetch_call (new_BedrockApiClient u) request
  /\ (exists init,
        fetch_call (new_BedrockApiClient u) request
        = Fetch (u ++ lit "/ai-draft") init)
  /\ apiGatewayUrl (new_BedrockApiClient (u ++ lit "//")) = u ++ lit "/".
Proof.
  intros Hu. unfold fetch_call, new_BedrockApiClient. cbn [apiGatewayUrl].
  rewrite (strip_trailing_slash_none _ Hu), strip_trailing_slash_added.
  split; [reflexivity|]. split; [now eexists|].
  replace (u ++ lit "//") with ((u ++ lit "/") ++ lit "/")
    by (now rewrite <- app_assoc).
  apply strip_trailing_slash_added.
Qed.

(** X11.  What [invokeQuery] returns never holds a citation or a
    sessionId that is [undefined], empty or otherwise false: each is
    [null] or counts as true; and it returns only for a success
    status. *)
Theorem client_result_is_null_or_true (upstream : Response)
    (result : QueryResponse) :
  receive upstream = Ok result ->
  ok upstream = true
  /\ null_or_true (citation result)
  /\ null_or_true (sessionId result).
Proof.
  unfold receive.
  destruct (ok upstream); cbn [negb].
  - destruct (response_json upstream) as [data|]; cbn [bind_result];
      [|discriminate].
    destruct (get data (lit "response")) as [r|]; cbn [bind_result];
      [|discriminate].
    destruct (get data (lit "citation")) as [c|]; cbn [bind_result];
      [|discriminate].
    destruct (get data (lit "sessionId")) as [sid|]; cbn [bind_result];
      [|discriminate].
    intros [= <-]. cbn [citation sessionId]. unfold null_or_true, or_else.
    split; [reflexivity|].
    split; [destruct (truthy c) eqn:T|destruct (truthy sid) eqn:T]; auto.
  - destruct (response_text upstream); discriminate.
Qed.
End GatewayProperties.

(* ================================================================== *)
(** ** Further properties of the orchestrator                          *)
(* ================================================================== *)

Section OrchestratorProperties.

Context {number : Type} {engine : Engine number}.

Abbreviation value := (value number).

(** X12.  For a body that is an object the handler always returns a
    result: with status 200 or 500 and the header that allows every
    origin.  It calls the retriever first and the model at most once
    after it, and a 200 is returned only after both calls. *)
Theorem handler_answers_200_or_500 (env : Env) (aws : aws_world)
    (props : list (jsstring * value)) :
  let retrieval :=
    Retrieve (retrieveInput env (get_own props (lit "question"))) in
  exists r,
    answer aws (handler env (VObj props)) = Ok r
    /\ (statusCode r = 200 \/ statusCode r = 500)
    /\ headers r = [ (lit "Access-Control-Allow-Origin", lit "*") ]
    /\ (calls aws (handler env (VObj props)) = [retrieval]
        \/ exists input,
             calls aws (handler env (VObj props))
             = [retrieval; InvokeModel input])
    /\ (statusCode r = 200 ->
        exists input,
          calls aws (handler env (VObj props))
          = [retrieval; InvokeModel input]).
Proof.
  intros retrieval. unfold answer, calls. rewrite handler_run. cbv zeta.
  fold retrieval.
  destruct (aws retrieval) as [retrieveResponse|e].
  2: { eexists. repeat split; try reflexivity; [right|left|]; try reflexivity.
       discriminate. }
  destruct (userPrompt _ _ _) as [prompt|e].
  2: { eexists. repeat split; try reflexivity; [right|left|]; try reflexivity.
       discriminate. }
  destruct (aws (InvokeModel _)) as [invokeResponse|e].
  2: { eexists. repeat split; try reflexivity; [right|right|];
         try reflexivity; [now eexists|discriminate]. }
  destruct (_ <- generatedText invokeResponse ;; _) as [email|e].
  - eexists. repeat split; try reflexivity; [left|right|];
      try reflexivity; [now eexists|intros _; now eexists].
  - eexists. repeat split; try reflexivity; [right|right|];
      try reflexivity; [now eexists|discriminate].
Qed.

(** X13.  A failure of the retrieval is final: when the retriever
    throws, the model is never invoked (the handler does not fall back
    to a draft without knowledge). *)
Theorem no_invocation_after_a_failed_retrieval (env : Env) (aws : aws_world)
    (props : list (jsstring * value)) (e : Error) :
  aws (Retrieve (retrieveInput env (get_own props (lit "question"))))
    = Throw e ->
  calls aws (handler env (VObj props)) =
    [Retrieve (retrieveInput env (get_own props (lit "question")))].
Proof.
  intros H. unfold calls. rewrite handler_run. cbv zeta. now rewrite H.
Qed.

(** X14.  When [event.body] is [undefined] or [null], reading the
    question from it throws before the [try] block: the exception
    escapes the handler, no service is called and no 500 result is
    made. *)
Theorem missing_body_escapes_the_handler (env : Env) (aws : aws_world)
    (event_body : value) :
  event_body = VUndefined \/ event_body = VNull ->
  calls aws (handler env event_body) = []
  /\ exists e, answer aws (handler env event_body) = Throw e.
Proof.
  intros [-> | ->]; (split; [reflexivity|]); eexists; reflexivity.
Qed.

Lemma citation_field_of_result (code : nat) (text citationUrl sid : value) :
  field (body (makeResults code text citationUrl sid)) (lit "citation")
  = as_received citationUrl.
Proof.
  unfold makeResults. cbn [body].
  match goal with
  | |- field (JSON_stringify (VObj ?l)) ?k = _ =>
      exact (field_stringified l k eq_refl)
  end.
Qed.

Lemma handler_success_inv (env : Env) (aws : aws_world)
    (props : list (jsstring * value)) (first : RetrievalResult)
    (rest : list RetrievalResult) (r : LambdaResult) :
  aws (Retrieve (retrieveInput env (get_own props (lit "question")))) =
    Ok {| retrievalResults := Some (first :: rest) |} ->
  answer aws (handler env (VObj props)) = Ok r ->
  statusCode r = 200 ->
  exists email,
    r = makeResults 200 (VStr email) (citation_of first)
          (get_own props (lit "requestSessionId")).
Proof.
  intros Hr. unfold answer. rewrite handler_run. cbv zeta. rewrite Hr.
  cbn [context_and_citation retrievalResults fst snd].
  destruct (userPrompt _ _ _) as [prompt|e];
    [|intros [= <-]; discriminate].
  destruct (aws (InvokeModel _)) as [invokeResponse|e];
    [|intros [= <-]; discriminate].
  destruct (_ <- generatedText invokeResponse ;; _) as [email|e];
    intros [= <-]; [intros _; now exists email|discriminate].
Qed.

(** X15.  When the first passage has no location, or a location that is
    neither of type [S3] nor of type [WEB], the citation of a
    successful draft is [null], whatever the locations of the passages
    after it. *)
Theorem citation_is_null_for_an_unlocated_first_passage (env : Env)
    (aws : aws_world) (props : list (jsstring * value))
    (first : RetrievalResult) (rest : list RetrievalResult)
    (r : LambdaResult) :
  aws (Retrieve (retrieveInput env (get_own props (lit "question")))) =
    Ok {| retrievalResults := Some (first :: rest) |} ->
  unlocated first ->
  answer aws (handler env (VObj props)) = Ok r ->
  statusCode r = 200 ->
  field (body r) (lit "citation") = VNull.
Proof.
  intros Hr Hu Ha Hs.
  destruct (handler_success_inv env aws props first rest r Hr Ha Hs)
    as [email ->].
  rewrite citation_field_of_result.
  unfold citation_of, unlocated in *.
  destruct (location first) as [loc|]; [|reflexivity].
  destruct Hu as [-> ->]. reflexivity.
Qed.

(** X16.  When the location of the first passage has type [S3] or [WEB]
    but holds no address of that type, the body of a successful draft
    has no citation property at all. *)
Theorem citation_is_left_out_without_an_address (env : Env)
    (aws : aws_world) (props : list (jsstring * value))
    (first : RetrievalResult) (rest : list RetrievalResult)
    (r : LambdaResult) :
  aws (Retrieve (retrieveInput env (get_own props (lit "question")))) =
    Ok {| retrievalResults := Some (first :: rest) |} ->
  located_without_address first ->
  answer aws (handler env (VObj props)) = Ok r ->
  statusCode r = 200 ->
  exists fields,
    body r = VObj fields /\ has_own fields (lit "citation") = false.
Proof.
  intros Hr Hl Ha Hs.
  destruct (handler_success_inv env aws props first rest r Hr Ha Hs)
    as [email ->].
  assert (E : citation_of (number:=number) first = VUndefined).
  { destruct Hl as (loc & Hloc & [[Ht H]|[Ht H]]);
      unfold citation_of; rewrite Hloc, Ht; cbn.
    - destruct (s3Location loc) as [s3|]; [now rewrite H|reflexivity].
    - destruct (webLocation loc) as [web|]; [now rewrite H|reflexivity]. }
  rewrite E. unfold makeResults. cbn [body JSON_stringify].
  eexists. split; [reflexivity|].
  destruct (get_own props (lit "requestSessionId")); reflexivity.
Qed.

Lemma source_blocks_nth (results : list RetrievalResult) :
  forall (offset i : nat) (passage : RetrievalResult),
    nth_error results i = Some passage ->
    nth_error (source_blocks offset results) i =
    Some (lit "[Source " ++ decimal (offset + i + 1) ++ lit "]: "
          ++ passage_text passage).
Proof.
  induction results as [|p results IH]; intros offset i passage.
  - destruct i; discriminate.
  - destruct i as [|i]; cbn [nth_error source_blocks].
    + intros [= ->]. now rewrite Nat.add_0_r.
    + intros H. rewrite (IH (S offset) i passage H).
      now replace (S offset + i + 1) with (offset + S i + 1) by lia.
Qed.

Lemma source_blocks_ranked (results : list RetrievalResult) :
  forall offset : nat,
    source_blocks offset results =
    map (fun ranked : nat * RetrievalResult =>
           lit "[Source " ++ decimal (fst ranked) ++ lit "]: "
           ++ passage_text (snd ranked))
        (combine (seq (offset + 1) (List.length results)) results).
Proof.
  induction results as [|p results IH]; intros offset; [reflexivity|].
  cbn [source_blocks List.length seq combine map fst snd].
  now rewrite (IH (S offset)).
Qed.

Lemma context_of_is_not_empty (first : RetrievalResult)
    (rest : list RetrievalResult) :
  is_empty (context_of (first :: rest)) = false.
Proof.
  unfold context_of. cbn [source_blocks].
  destruct (source_blocks 1 rest); reflexivity.
Qed.

(** X17.  When the retrieval returns passages, the user turn the model
    is invoked with holds, after the conversation history and between
    the tags [company_knowledge], one block for each passage, in the
    order of the ranking and separated by blank lines: the block of the
    passage of rank [i] (counting from one) is [[Source i]: ] followed
    by its text; a passage without content or without text has an empty
    text. *)
Theorem sources_are_numbered_in_ranking_order (env : Env) (aws : aws_world)
    (props : list (jsstring * value)) (s : jsstring)
    (retrieveResponse : RetrieveResponse)
    (first : RetrievalResult) (rest : list RetrievalResult) :
  let results := first :: rest in
  let block (ranked : nat * RetrievalResult) :=
    lit "[Source " ++ decimal (fst ranked) ++ lit "]: "
    ++ match content (snd ranked) with
       | Some c => match text c with Some t => t | None => [] end
       | None => []
       end in
  get_own props (lit "question") = VStr s ->
  typed_history (get_own props (lit "conversationHistory")) = true ->
  aws (Retrieve (retrieveInput env (VStr s))) = Ok retrieveResponse ->
  retrievalResults retrieveResponse = Some results ->
  exists input history after,
    calls aws (handler env (VObj props)) =
      [Retrieve (retrieveInput env (VStr s)); InvokeModel input]
    /\ conversationHistorySection (get_own props (lit "conversationHistory"))
       = Ok history
    /\ messages (invoke_body input) =
         [ {| role := lit "user";
              message_content :=
                history ++ lit "<company_knowledge>" ++ nl
                ++ join (nl ++ nl)
                     (map block
                        (combine (seq 1 (List.length results)) results))
                ++ nl ++ lit "</company_knowledge>" ++ after |};
           {| role := lit "assistant";
              message_content := lit "Hi {{CUSTOMER_NAME}}," |} ].
Proof.
  intros results block Hq Hh Hr Hn. unfold calls. rewrite handler_run.
  cbv zeta. rewrite Hq, Hr.
  assert (E : context_and_citation (number:=number) retrieveResponse
              = (context_of results, citation_of first)).
  { unfold context_and_citation. now rewrite Hn. }
  rewrite E. cbn [fst snd].
  destruct (history_section_typed _ Hh) as (history & b & Hs & Hb).
  unfold userPrompt. rewrite Hs, Hb. cbn [bind_result to_string].
  unfold results at 1. rewrite context_of_is_not_empty. cbn [negb].
  unfold context_of. rewrite (source_blocks_ranked results 0).
  change (0 + 1) with 1.
  eexists _, history, _.
  destruct (aws (InvokeModel _)) as [invokeResponse|e];
    [destruct (_ <- generatedText invokeResponse ;; _) as [email|e]|];
    (split; [reflexivity|]); (split; [reflexivity|]); reflexivity.
Qed.

(** X18.  A conversation history that is empty, [null] or otherwise
    false gives the same prompt as no history at all. *)
Theorem empty_history_is_no_history (question conversationHistory : value)
    (context : jsstring) :
  truthy conversationHistory = false \/ conversationHistory = VArr [] ->
  userPrompt question conversationHistory context
  = userPrompt question VUndefined context.
Proof.
  intros H. unfold userPrompt, conversationHistorySection.
  assert (E : has_history conversationHistory = Ok false).
  { unfold has_history. destruct H as [-> | ->]; reflexivity. }
  rewrite E. reflexivity.
Qed.

Lemma history_lines_rendered (msgs : list value) :
  forallb typed_message msgs = true ->
  map_result history_line msgs =
  Ok (map (fun msg => lit "[" ++ speaker msg ++ lit "]: " ++ content_text msg)
          msgs).
Proof.
  induction msgs as [|msg msgs IH]; cbn [forallb map_result map];
    [reflexivity|].
  intros H. apply andb_true_iff in H as [Hm Hs]. rewrite (IH Hs).
  destruct msg as [| | | | | |props]; try discriminate.
  unfold typed_message in Hm. unfold history_line, speaker, content_text.
  cbn [get field bind_result].
  destruct (get_own props (lit "content")); try discriminate.
  reflexivity.
Qed.

(** X19.  With a history of messages whose contents are strings, the
    prompt is the history, the prompt of the same question without
    history, and a sentence that asks to consider the history.  The
    history is rendered between the tags [conversation_history], one
    line for each message in their order: a message of role [customer]
    is labelled [Customer], every other message [CS Rep]. *)
Theorem history_is_rendered_in_order (question : jsstring) (msg : value)
    (msgs : list value) (context : jsstring) :
  let rendered :=
    lit "<conversation_history>" ++ nl
    ++ join (nl ++ nl)
         (map (fun m => lit "[" ++ speaker m ++ lit "]: " ++ content_text m)
              (msg :: msgs))
    ++ nl ++ lit "</conversation_history>" ++ nl ++ nl in
  let consider :=
    if is_empty context
    then lit " Consider the conversation history to maintain context."
    else lit " Consider the conversation history to maintain context and continuity." in
  forallb typed_message (msg :: msgs) = true ->
  conversationHistorySection (VArr (msg :: msgs)) = Ok rendered
  /\ exists plain,
       userPrompt (VStr question) VUndefined context = Ok plain
       /\ userPrompt (VStr question) (VArr (msg :: msgs)) context
          = Ok (rendered ++ plain ++ consider).
Proof.
  intros rendered consider H.
  assert (E : conversationHistorySection (VArr (msg :: msgs)) = Ok rendered).
  { unfold conversationHistorySection, has_history.
    cbn [truthy length_gt_zero List.length Nat.eqb negb bind_result call_map].
    now rewrite (history_lines_rendered _ H). }
  split; [exact E|].
  unfold userPrompt. rewrite E.
  unfold conversationHistorySection at 1, has_history.
  cbn [truthy length_gt_zero List.length Nat.eqb negb bind_result to_string].
  subst consider.
  destruct (is_empty context); cbn [negb];
    (eexists; split; [reflexivity|]);
    f_equal; rewrite <- ?app_assoc; cbn [app]; rewrite ?app_nil_r;
    reflexivity.
Qed.

(** X20.  When the model answers with a document that has no content,
    or an empty content, reading the generated text throws: the handler
    answers 500 with the message of that error, after both calls. *)
Theorem reply_without_content_is_answered_500 (env : Env) (aws : aws_world)
    (props doc : list (jsstring * value))
    (retrieveResponse : RetrieveResponse) (prompt key : jsstring) :
  let q := get_own props (lit "question") in
  let h := get_own props (lit "conversationHistory") in
  let m := get_own props (lit "modelId") in
  let invocation :=
    InvokeModel (invokeInput (or_else m (VStr DEFAULT_MODEL)) prompt) in
  aws (Retrieve (retrieveInput env q)) = Ok retrieveResponse ->
  userPrompt q h (fst (context_and_citation (number:=number) retrieveResponse))
    = Ok prompt ->
  aws invocation = Ok {| parsed_body := Ok (VObj doc) |} ->
  (get_own doc (lit "content") = VUndefined /\ key = lit "0")
  \/ (get_own doc (lit "content") = VArr [] /\ key = lit "text") ->
  calls aws (handler env (VObj props))
    = [Retrieve (retrieveInput env q); invocation]
  /\ answer aws (handler env (VObj props)) =
     Ok {| statusCode := 500;
           body := VObj [
             (lit "response",
              VStr (lit "Server side error: "
                    ++ fault_message (ReadOfNullish false key)));
             (lit "citation", VNull);
             (lit "sessionId", VNull) ];
           headers := [ (lit "Access-Control-Allow-Origin", lit "*") ] |}.
Proof.
  intros q h m invocation Hr Hp Hi Hc.
  unfold calls, answer. rewrite handler_run. cbv zeta.
  fold q h m. rewrite Hr, Hp. fold invocation. rewrite Hi.
  unfold generatedText. cbn [parsed_body bind_result get].
  destruct Hc as [[-> ->]|[-> ->]]; cbn [index0 get bind_result fst snd];
    split; reflexivity.
Qed.

(** X21.  When the first block of the answer of the model has no text,
    the draft still succeeds, and its text is the greeting, a blank
    line and the word [undefined]. *)
Theorem block_without_text_is_drafted_as_undefined (env : Env)
    (aws : aws_world) (props doc block : list (jsstring * value))
    (blocks : list value)
    (retrieveResponse : RetrieveResponse) (prompt : jsstring) :
  let q := get_own props (lit "question") in
  let h := get_own props (lit "conversationHistory") in
  let m := get_own props (lit "modelId") in
  aws (Retrieve (retrieveInput env q)) = Ok retrieveResponse ->
  userPrompt q h (fst (context_and_citation (number:=number) retrieveResponse))
    = Ok prompt ->
  aws (InvokeModel (invokeInput (or_else m (VStr DEFAULT_MODEL)) prompt))
    = Ok {| parsed_body := Ok (VObj doc) |} ->
  get_own doc (lit "content") = VArr (VObj block :: blocks) ->
  get_own block (lit "text") = VUndefined ->
  exists r,
    answer aws (handler env (VObj props)) = Ok r
    /\ statusCode r = 200
    /\ field (body r) (lit "response") =
       VStr (lit "Hi {{CUSTOMER_NAME}}," ++ nl ++ nl ++ lit "undefined").
Proof.
  intros q h m Hr Hp Hi Hc Ht.
  unfold answer. rewrite handler_run. cbv zeta.
  fold q h m. rewrite Hr, Hp, Hi.
  unfold generatedText. cbn [parsed_body bind_result get]. rewrite Hc.
  cbn [index0 get bind_result]. rewrite Ht.
  cbn [fullEmail to_string bind_result snd].
  eexists. split; [reflexivity|]. split; reflexivity.
Qed.

(** X22.  The handler checks no model identifier: whatever identifier
    counts as true is the one the model is invoked with. *)
Theorem given_model_is_invoked_unchecked (env : Env) (aws : aws_world)
    (props : list (jsstring * value)) (input : InvokeModelInput) :
  truthy (get_own props (lit "modelId")) = true ->
  In (InvokeModel input) (calls aws (handler env (VObj props))) ->
  modelId input = get_own props (lit "modelId").
Proof.
  intros Ht. unfold calls. rewrite handler_run. cbv zeta.
  unfold or_else. rewrite Ht.
  destruct (aws (Retrieve _)) as [retrieveResponse|e];
    [|intros [H|[]]; discriminate].
  destruct (userPrompt _ _ _) as [prompt|e];
    [|intros [H|[]]; discriminate].
  assert (E : forall l : list aws_call,
             l = [Retrieve (retrieveInput env (get_own props (lit "question")));
                  InvokeModel (invokeInput (get_own props (lit "modelId")) prompt)] ->
             In (InvokeModel input) l ->
             modelId input = get_own props (lit "modelId")).
  { intros l -> [H|[H|[]]]; [discriminate|]. now injection H as <-. }
  destruct (aws (InvokeModel _)) as [invokeResponse|e];
    [destruct (_ <- generatedText invokeResponse ;; _)|];
    cbn [fst]; now apply E.
Qed.

End OrchestratorProperties.

(* ================================================================== *)
(** ** The gateway in front of the orchestrator                        *)
(* ================================================================== *)

Section DeployedProperties.

Context {number : Type} {engine : Engine number}.

Abbreviation value := (value number).

(** X23.  Behind the gateway every failure of the orchestrator shows as
    the same 503: an accepted request is answered either 200 or with
    the generic envelope [Service Unavailable], never with the text of
    the exception the orchestrator reported. *)
Theorem orchestrator_failure_shows_as_503 (env : Env) (aws : aws_world)
    (apiClient : BedrockApiClient) (props : list (jsstring * value))
    (s : jsstring) (r : ExpressResponse) :
  get_own props (lit "question") = VStr s ->
  validate (VStr s) (get_own props (lit "modelId"))
    (get_own props (lit "conversationHistory")) = Ok None ->
  snd (deployed env aws apiClient (VObj props)) = Ok r ->
  res_status r = 200
  \/ r = envelope 503 (lit "Service Unavailable")
           (lit "Bedrock Knowledge Base temporarily unavailable").
Proof.
  intros Hq Hv. unfold deployed. cbn [snd].
  rewrite post_ai_draft_run. cbv zeta. rewrite Hq, Hv.
  cbn [call_trim snd lambda_proxy fetch_call request_body].
  destruct (forwarded_body (trim s)
              (get_own props (lit "requestSessionId"))
              (get_own props (lit "modelId"))
              (get_own props (lit "conversationHistory")))
    as (props' & -> & _ & _).
  destruct (handler_answer_cases env aws props')
    as [[e ->]|(email & citationUrl & ->)].
  - cbn [bind_result]. unfold receive.
    cbn [ok status server_side_error makeResults statusCode Nat.leb andb
         negb response_text bind_result].
    unfold respond_to_error. cbn [message].
    rewrite gateway_error_is_recognised. intros [= <-]. right.
    exact service_unavailable_sent.
  - cbn [bind_result].
    destruct (receive _) as [result|e'] eqn:E.
    + intros [= <-]. now left.
    + exfalso. revert E. unfold receive.
      cbn [ok status makeResults statusCode negb response_json
           bind_result body].
      change (Nat.leb 200 200 && Nat.leb 200 299) with true. cbn [negb].
      cbn [JSON_stringify get bind_result]. discriminate.
Qed.

End DeployedProperties.

(* ================================================================== *)
(** ** Properties of the chat view                                     *)
(* ================================================================== *)

Section ChatProperties.

Import Chat.

Lemma until_brace_app (name rest : jsstring) :
  forallb (fun c => negb (N.eqb c 125)) name = true ->
  until_brace (name ++ 125%N :: rest) = (name, 125%N :: rest).
Proof.
  induction name as [|c name IH]; cbn [app forallb until_brace].
  - intros _. now rewrite N.eqb_refl.
  - intros H. apply andb_true_iff in H as [Hc Hn].
    apply negb_true_iff in Hc. rewrite Hc, (IH Hn). reflexivity.
Qed.

Lemma until_brace_spec (s : jsstring) :
  s = fst (until_brace s) ++ snd (until_brace s)
  /\ forallb (fun c => negb (N.eqb c 125)) (fst (until_brace s)) = true.
Proof.
  induction s as [|c s [IH1 IH2]]; cbn [until_brace]; [now split|].
  destruct (N.eqb c 125) eqn:E; cbn [fst snd app forallb]; [now split|].
  rewrite E, IH2. split; [now rewrite <- IH1|reflexivity].
Qed.

Lemma placeholder_at_placeholder (name rest : jsstring) :
  name <> [] ->
  forallb (fun c => negb (N.eqb c 125)) name = true ->
  placeholder_at (lit "{{" ++ name ++ lit "}}" ++ rest)
  = Some (lit "{{" ++ name ++ lit "}}", rest).
Proof.
  intros Hn Hf. cbn [lit list_ascii_of_string map N_of_ascii app].
  change (N_of_ascii "{") with 123%N. change (N_of_ascii "}") with 125%N.
  cbn [placeholder_at]. rewrite (until_brace_app name _ Hf).
  destruct name; [now elim Hn|reflexivity].
Qed.

Lemma placeholder_at_inv (s matched rest : jsstring) :
  placeholder_at s = Some (matched, rest) ->
  exists name,
    name <> []
    /\ forallb (fun c => negb (N.eqb c 125)) name = true
    /\ matched = lit "{{" ++ name ++ lit "}}"
    /\ s = matched ++ rest.
Proof.
  unfold placeholder_at.
  destruct s as [|a s]; [discriminate|].
  destruct a as [|p]; [discriminate|].
  destruct (Pos.eq_dec p 123) as [-> | Hp].
  2: { repeat (destruct p as [p|p|]; try discriminate; try (now elim Hp)). }
  destruct s as [|b s]; [discriminate|].
  destruct b as [|p]; [discriminate|].
  destruct (Pos.eq_dec p 123) as [-> | Hp].
  2: { repeat (destruct p as [p|p|]; try discriminate; try (now elim Hp)). }
  destruct (until_brace_spec s) as [Hs Hf].
  destruct (until_brace s) as [name after]. cbn [fst snd] in Hs, Hf.
  destruct name as [|c name]; [discriminate|].
  destruct after as [|d after]; [discriminate|].
  destruct d as [|p]; [discriminate|].
  destruct (Pos.eq_dec p 125) as [-> | Hp].
  2: { repeat (destruct p as [p|p|]; try discriminate; try (now elim Hp)). }
  destruct after as [|d after]; [discriminate|].
  destruct d as [|p]; [discriminate|].
  destruct (Pos.eq_dec p 125) as [-> | Hp].
  2: { repeat (destruct p as [p|p|]; try discriminate; try (now elim Hp)). }
  intros [= <- <-]. exists (c :: name).
  split; [discriminate|]. split; [exact Hf|]. split; [reflexivity|].
  rewrite Hs. cbn [lit list_ascii_of_string map N_of_ascii app].
  change (N_of_ascii "{") with 123%N. change (N_of_ascii "}") with 125%N.
  now rewrite <- !app_assoc.
Qed.

Lemma split_from_concat (fuel : nat) :
  forall pending s : jsstring,
    List.concat (split_from fuel pending s) = rev pending ++ s.
Proof.
  induction fuel as [|fuel IH]; intros pending s; cbn [split_from].
  - cbn [List.concat]. now rewrite app_nil_r.
  - destruct (placeholder_at s) as [[matched rest]|] eqn:P.
    + apply placeholder_at_inv in P as (name & _ & _ & _ & ->).
      cbn [List.concat]. rewrite IH. reflexivity.
    + destruct s as [|c s]; cbn [List.concat]; [reflexivity|].
      rewrite IH. cbn [rev]. now rewrite <- app_assoc.
Qed.

(** X24.  The parts [formatEmailText] makes of a text, put together in
    their order, are the text: nothing is lost and nothing is added. *)
Theorem parts_put_together_are_the_text (text : jsstring) :
  List.concat (map snd (formatEmailText text)) = text.
Proof.
  unfold formatEmailText, split. rewrite map_map. cbn [snd].
  rewrite map_id. apply split_from_concat.
Qed.

Lemma has_placeholder_placeholder (part : jsstring) :
  placeholder part -> has_placeholder part = true.
Proof.
  intros (name & Hn & Hf & ->).
  pose proof (placeholder_at_placeholder name [] Hn Hf) as H.
  rewrite !app_nil_r in H.
  destruct (lit "{{" ++ name ++ lit "}}") eqn:E; cbn [has_placeholder];
    now rewrite H.
Qed.

Lemma placeholder_at_prefix (u s : jsstring) :
  placeholder_at (u ++ s) = None -> placeholder_at u = None.
Proof.
  intros H. destruct (placeholder_at u) as [[matched rest]|] eqn:P;
    [|reflexivity].
  apply placeholder_at_inv in P as (name & Hn & Hf & -> & ->).
  rewrite <- !app_assoc in H.
  now rewrite (placeholder_at_placeholder name (rest ++ s) Hn Hf) in H.
Qed.

Lemma has_placeholder_none (part : jsstring) :
  (forall before u, part = before ++ u -> placeholder_at u = None) ->
  has_placeholder part = false.
Proof.
  induction part as [|c part IH]; intros H.
  - cbn [has_placeholder]. now rewrite (H [] [] eq_refl).
  - cbn [has_placeholder]. rewrite (H [] (c :: part) eq_refl).
    apply IH. intros before u ->. now apply (H (c :: before) u).
Qed.

Lemma pending_part_is_plain (pending s : jsstring) :
  pending_is_plain pending s ->
  forall before u, rev pending = before ++ u -> placeholder_at u = None.
Proof.
  intros Hp before u Hu.
  destruct u as [|c u]; [reflexivity|].
  apply (placeholder_at_prefix _ s), (Hp before); [exact Hu|discriminate].
Qed.

Lemma split_from_parts (fuel : nat) :
  forall pending s : jsstring,
    List.length s <= fuel ->
    pending_is_plain pending s ->
    forall part,
      In part (split_from fuel pending s) ->
      placeholder part \/ has_placeholder part = false.
Proof.
  induction fuel as [|fuel IH]; intros pending s Hl Hp part;
    cbn [split_from].
  - destruct s; [|cbn in Hl; lia]. rewrite app_nil_r.
    intros [<- |[]]. right. apply has_placeholder_none.
    intros before u Hu. exact (pending_part_is_plain pending [] Hp before u Hu).
  - destruct (placeholder_at s) as [[matched rest]|] eqn:P.
    + pose proof P as P'.
      apply placeholder_at_inv in P' as (name & Hn & Hf & -> & ->).
      intros [<- |[<- |H]].
      * right. apply has_placeholder_none. intros before u Hu.
        exact (pending_part_is_plain pending _ Hp before u Hu).
      * left. now exists name.
      * apply (IH [] rest); [| |exact H].
        -- rewrite !length_app in Hl. cbn in Hl. lia.
        -- intros before u Hu Hne. cbn [rev] in Hu.
           destruct before, u; try discriminate. now elim Hne.
    + destruct s as [|c s].
      * intros [<- |[]]. right. apply has_placeholder_none.
        intros before u Hu.
        exact (pending_part_is_plain pending [] Hp before u Hu).
      * apply (IH (c :: pending) s); [cbn in Hl; lia|].
        intros before u Hu Hne. cbn [rev] in Hu.
        destruct (exists_last Hne) as (u' & d & ->).
        rewrite app_assoc in Hu. apply app_inj_tail in Hu as [Hu ->].
        rewrite <- app_assoc. cbn [app].
        destruct u' as [|e u']; [exact P|].
        apply (Hp before); [exact Hu|discriminate].
Qed.

(** X25.  [formatEmailText] highlights a part exactly when the part is
    a placeholder: two opening braces, a name that is not empty and
    holds no closing brace, two closing braces.  No plain part holds a
    placeholder, and no more than the placeholder is highlighted. *)
Theorem highlighted_parts_are_the_placeholders (text : jsstring)
    (highlighted : bool) (part : jsstring) :
  In (highlighted, part) (formatEmailText text) ->
  (highlighted = true <-> placeholder part).
Proof.
  unfold formatEmailText. intros H.
  apply in_map_iff in H as (p & [= <- <-] & Hin).
  split; [|apply has_placeholder_placeholder].
  intros Ht.
  destruct (split_from_parts (List.length text) [] text (le_n _)) with (part := p)
    as [Hp|Hp]; [| exact Hin | exact Hp | congruence].
  intros before u Hu Hne. cbn [rev] in Hu.
  destruct before, u; try discriminate. now elim Hne.
Qed.

Lemma split_after_greeting (fuel : nat) (rest : jsstring) :
  split_from (S (S (S (S fuel)))) [] (lit "Hi {{CUSTOMER_NAME}}" ++ rest)
  = lit "Hi " :: lit "{{CUSTOMER_NAME}}" :: split_from fuel [] rest.
Proof. reflexivity. Qed.

(** The text of an email that begins with the greeting. *)
Lemma greeting_is_highlighted (continuation : jsstring) :
  exists parts,
    formatEmailText (lit "Hi {{CUSTOMER_NAME}}," ++ nl ++ nl ++ continuation)
    = (false, lit "Hi ") :: (true, lit "{{CUSTOMER_NAME}}") :: parts.
Proof.
  unfold formatEmailText, split.
  change (lit "Hi {{CUSTOMER_NAME}}," ++ nl ++ nl ++ continuation)
    with (lit "Hi {{CUSTOMER_NAME}}" ++ (lit "," ++ nl ++ nl ++ continuation)).
  rewrite length_app.
  change (List.length (lit "Hi {{CUSTOMER_NAME}}")
          + List.length (lit "," ++ nl ++ nl ++ continuation))
    with (S (S (S (S (16 + List.length (lit "," ++ nl ++ nl ++ continuation)))))).
  rewrite split_after_greeting. cbn [map].
  eexists. reflexivity.
Qed.

End ChatProperties.

(* ================================================================== *)
(** ** Properties of the chat page                                     *)
(* ================================================================== *)

Section PageProperties.

Context {number : Type} {engine : Engine number}.

Abbreviation value := (value number).

(** X26.  In the text of every successful draft the chat view shows
    [Hi ] as plain text and highlights [{{CUSTOMER_NAME}}] after it. *)
Theorem drafted_greeting_is_highlighted (env : Env) (aws : aws_world)
    (props : list (jsstring * value)) (r : LambdaResult) :
  answer aws (handler env (VObj props)) = Ok r ->
  statusCode r = 200 ->
  exists email parts,
    field (body r) (lit "response") = VStr email
    /\ Chat.formatEmailText email
       = (false, lit "Hi ") :: (true, lit "{{CUSTOMER_NAME}}") :: parts.
Proof.
  unfold answer. rewrite handler_run. cbv zeta.
  destruct (aws (Retrieve _)) as [retrieveResponse|e];
    [|intros [= <-]; discriminate].
  destruct (userPrompt _ _ _) as [prompt|e];
    [|intros [= <-]; discriminate].
  destruct (aws (InvokeModel _)) as [invokeResponse|e];
    [|intros [= <-]; discriminate].
  destruct (generatedText invokeResponse) as [generated|e];
    cbn [bind_result]; [|intros [= <-]; discriminate].
  unfold fullEmail.
  destruct (to_string generated) as [continuation|e];
    cbn [bind_result]; [intros [= <-] _|intros [= <-]; discriminate].
  destruct (greeting_is_highlighted continuation) as [parts Hp].
  eexists _, parts. split; [reflexivity|exact Hp].
Qed.

Lemma send_calls (w : http_world) (s : App.State) :
  calls w (App.handleSendQuestion s) = [App.query_call s].
Proof.
  unfold calls, App.handleSendQuestion. cbn [run fst].
  destruct (_ <- w (App.query_call s) ;; _) as [[[sid r] c]|e]; reflexivity.
Qed.

(** X27.  Whatever the call does, one run of [handleSendQuestion] makes
    that one call and adds exactly one entry at the end of the history,
    with the question that was asked; the spinner is off afterwards,
    and the question, the model and the base URL are as they were. *)
Theorem send_adds_one_entry (w : http_world) (s : App.State) :
  let s' := answer w (App.handleSendQuestion s) in
  calls w (App.handleSendQuestion s) = [App.query_call s]
  /\ (exists entry,
        App.history s' = App.history s ++ [entry]
        /\ App.question entry = App.currentQuestion s)
  /\ App.spinner s' = false
  /\ App.currentQuestion s' = App.currentQuestion s
  /\ App.selectedModel s' = App.selectedModel s
  /\ App.baseUrl s' = App.baseUrl s.
Proof.
  unfold answer, calls, App.handleSendQuestion. cbn [run fst snd].
  destruct (_ <- w (App.query_call s) ;; _) as [[[sid r] c]|e];
    cbn [run fst snd App.history App.spinner App.currentQuestion
         App.selectedModel App.baseUrl];
    (split; [reflexivity|]); (split; [now eexists|]); repeat split.
Qed.

(** X28.  The page does not look at the status of the answer: whenever
    the body of the answer is a JSON object, its response and its
    citation are shown as the new entry and its sessionId becomes the
    session of the page, [undefined] when the object has none. *)
Theorem answer_is_shown_whatever_its_status (w : http_world) (s : App.State)
    (upstream : Response) (data : list (jsstring * value)) :
  w (App.query_call s) = Ok upstream ->
  response_json upstream = Ok (VObj data) ->
  let s' := answer w (App.handleSendQuestion s) in
  App.history s' =
    App.history s
    ++ [ {| App.question := App.currentQuestion s;
            App.response := get_own data (lit "response");
            App.citation := get_own data (lit "citation") |} ]
  /\ App.sessionId s' = get_own data (lit "sessionId").
Proof.
  intros Hw Hj. unfold answer, App.handleSendQuestion. cbn [run snd].
  rewrite Hw. cbn [bind_result]. rewrite Hj.
  cbn [bind_result App.read_answer get run snd]. split; reflexivity.
Qed.

(** X29.  When the call fails, when the body of the answer is no JSON
    text, or when it is the JSON text [null], the new entry holds the
    fixed error text and no citation, and the session of the page is
    kept. *)
Theorem failed_send_keeps_the_session (w : http_world) (s : App.State) :
  (exists e, w (App.query_call s) = Throw e)
  \/ (exists upstream,
        w (App.query_call s) = Ok upstream
        /\ ((exists e, response_json upstream = Throw e)
            \/ response_json upstream = Ok VNull)) ->
  let s' := answer w (App.handleSendQuestion s) in
  App.history s' =
    App.history s
    ++ [ {| App.question := App.currentQuestion s;
            App.response := VStr App.ERROR_TEXT;
            App.citation := VUndefined |} ]
  /\ App.sessionId s' = App.sessionId s.
Proof.
  intros H. unfold answer, App.handleSendQuestion. cbn [run snd].
  destruct H as [[e ->]|(upstream & -> & H)]; cbn [bind_result].
  - split; reflexivity.
  - destruct H as [[e ->]| ->]; split; reflexivity.
Qed.

(** X30.  The session is threaded through the requests: the request
    sent after an answer carries the sessionId of that answer as its
    requestSessionId, when that is absent or a JSON value that
    [JSON.stringify] prints as it is; after the model is changed the
    request carries no requestSessionId; clearing the history keeps the
    session. *)
Theorem session_is_threaded (w w' : http_world) (s : App.State)
    (upstream : Response) (data : list (jsstring * value))
    (model : value) :
  w (App.query_call s) = Ok upstream ->
  response_json upstream = Ok (VObj data) ->
  json_property (get_own data (lit "sessionId")) ->
  let s' := answer w (App.handleSendQuestion s) in
  (exists url init,
     calls w' (App.handleSendQuestion s') = [Fetch url init]
     /\ field (request_body init) (lit "requestSessionId")
        = get_own data (lit "sessionId"))
  /\ (exists url init,
        calls w' (App.handleSendQuestion (App.handleChangeModel model s'))
        = [Fetch url init]
        /\ field (request_body init) (lit "requestSessionId") = VUndefined)
  /\ App.sessionId (App.onClearHistory s') = get_own data (lit "sessionId").
Proof.
  intros Hw Hj Hs s'.
  assert (Hsid : App.sessionId s' = get_own data (lit "sessionId")).
  { subst s'. unfold answer, App.handleSendQuestion. cbn [run snd].
    rewrite Hw. cbn [bind_result]. rewrite Hj. reflexivity. }
  split; [|split].
  - eexists _, _. split; [apply send_calls|].
    cbn [request_body]. rewrite Hsid.
    match goal with
    | |- field (JSON_stringify (VObj ?l)) ?k = ?rhs =>
        rewrite (field_stringified l k eq_refl);
        change (as_received rhs = rhs)
    end.
    now apply as_received_json_property.
  - eexists _, _. split; [apply send_calls|].
    cbn [request_body App.handleChangeModel App.sessionId].
    match goal with
    | |- field (JSON_stringify (VObj ?l)) ?k = ?rhs =>
        rewrite (field_stringified l k eq_refl)
    end.
    reflexivity.
  - exact Hsid.
Qed.

End PageProperties.

(* ================================================================== *)
(** ** Concrete runs                                                   *)
(* ================================================================== *)

Section Runs.

Import Reference Samples.

(** C1 fails as stated: the retriever refuses the connection, and the
    body of the 500 response carries the text of that exception. *)
Lemma exception_text_is_in_the_response_body :
  answer retriever_down (handler env (VObj plain)) =
    Ok {| statusCode := 500;
          body := VObj [
            (lit "response",
             VStr (lit "Server side error: connect ECONNREFUSED 10.0.0.5:443"));
            (lit "citation", VNull);
            (lit "sessionId", VNull) ];
          headers := [ (lit "Access-Control-Allow-Origin", lit "*") ] |}
  /\ retriever_down (Retrieve (retrieveInput env (VStr question))) =
       Throw (mkError (lit "connect ECONNREFUSED 10.0.0.5:443"))
  /\ includes (lit "Server side error: connect ECONNREFUSED 10.0.0.5:443")
       (lit "connect ECONNREFUSED 10.0.0.5:443") = true.
Proof. split; [|split]; vm_compute; reflexivity. Qed.

Lemma failure_message_witness :
  answer retriever_down (handler env (VObj plain)) =
  Ok {| statusCode := 500;
        body := VObj [
          (lit "response",
           VStr (lit "Server side error: " ++ message refused));
          (lit "citation", VNull);
          (lit "sessionId", VNull) ];
        headers := [ (lit "Access-Control-Allow-Origin", lit "*") ] |}.
Proof.
  apply (failure_is_answered_with_the_exception_message
           env retriever_down plain refused).
  left. reflexivity.
Defined.

Lemma first_passage_citation_witness :
  field (body drafted) (lit "citation") = VStr (lit "s3://kb/shipping.pdf").
Proof.
  apply (citation_is_the_first_passage_location
           env both_up with_session shipping [returns]).
  - reflexivity.
  - eapply storage_object_uri; reflexivity.
  - vm_compute; reflexivity.
  - reflexivity.
Defined.

Lemma no_passages_witness :
  exists input prompt r,
    calls nothing_found (handler env (VObj plain)) =
      [Retrieve (retrieveInput env (VStr question)); InvokeModel input]
    /\ messages (invoke_body input) =
         [ {| role := lit "user"; message_content := prompt |};
           {| role := lit "assistant";
              message_content := lit "Hi {{CUSTOMER_NAME}}," |} ]
    /\ includes prompt
         (lit "The company knowledge base does not contain information relevant to this inquiry.")
       = true
    /\ answer nothing_found (handler env (VObj plain)) = Ok r
    /\ field (body r) (lit "citation") = VNull.
Proof.
  apply (no_passages_prompt_and_citation
           env nothing_found plain question {| retrievalResults := Some [] |}).
  - reflexivity.
  - reflexivity.
  - reflexivity.
  - right. reflexivity.
Defined.

(** C4 fails as stated: a request that supplies the empty string as its
    session is answered 200 with a null sessionId. *)
Lemma empty_session_id_is_answered_null :
  get_own with_empty_session (lit "requestSessionId") = VStr []
  /\ snd (deployed env both_up apiClient (VObj with_empty_session)) =
     Ok {| res_status := 200;
           res_json := VObj [
             (lit "response",
              VStr (lit "Hi {{CUSTOMER_NAME}}," ++ nl ++ nl ++ continuation));
             (lit "citation", VStr (lit "s3://kb/shipping.pdf"));
             (lit "sessionId", VNull) ] |}.
Proof. split; vm_compute; reflexivity. Qed.

Lemma session_id_witness :
  field (res_json delivered) (lit "sessionId") = VStr (lit "session-123-abc").
Proof.
  apply (session_id_is_echoed_unless_false
           env both_up apiClient with_session delivered).
  - exact I.
  - vm_compute; reflexivity.
  - reflexivity.
Defined.

Lemma greeting_witness :
  exists input invokeResponse generated text,
    In (InvokeModel input) (calls both_up (handler env (VObj with_session)))
    /\ both_up (InvokeModel input) = Ok invokeResponse
    /\ generatedText invokeResponse = Ok generated
    /\ to_string generated = Ok text
    /\ field (body drafted) (lit "response") =
       VStr (lit "Hi {{CUSTOMER_NAME}}," ++ nl ++ nl ++ text).
Proof.
  apply (response_is_greeting_then_continuation
           env both_up with_session drafted).
  - vm_compute; reflexivity.
  - reflexivity.
Defined.

(** C6 fails as stated: when [fetch] cannot connect, the gateway
    answers 500, not 503. *)
Lemma connection_failure_is_answered_500 :
  unreachable
    (fetch_call apiClient (queryRequest question VUndefined VUndefined VUndefined))
    = Throw (mkError (lit "fetch failed"))
  /\ calls unreachable (post_ai_draft apiClient (VObj plain)) =
     [fetch_call apiClient
        (queryRequest question VUndefined VUndefined VUndefined)]
  /\ answer unreachable (post_ai_draft apiClient (VObj plain)) =
     Ok {| res_status := 500;
           res_json := VObj [
             (lit "statusCode", VNum (num_of_nat 500));
             (lit "error", VStr (lit "Internal Server Error"));
             (lit "message", VStr (lit "Error invoking Bedrock model")) ] |}.
Proof. split; [|split]; vm_compute; reflexivity. Qed.

Lemma upstream_error_witness :
  answer upstream_error (post_ai_draft apiClient (VObj plain)) =
  Ok {| res_status := 503;
        res_json := VObj [
          (lit "statusCode", VNum (num_of_nat 503));
          (lit "error", VStr (lit "Service Unavailable"));
          (lit "message",
           VStr (lit "Bedrock Knowledge Base temporarily unavailable")) ] |}.
Proof.
  pose proof (upstream_failure_is_answered_503_or_500
                apiClient upstream_error plain question) as H.
  cbv zeta in H. destruct H as (_ & H & _).
  - reflexivity.
  - vm_compute; reflexivity.
  - apply (H {| status := 500;
                 response_text := Ok (lit "{}");
                 response_json := Ok (VObj []) |} (lit "{}")); reflexivity.
Defined.

Lemma blank_question_witness :
  calls upstream_error (post_ai_draft apiClient (VObj blank)) = []
  /\ answer upstream_error (post_ai_draft apiClient (VObj blank)) =
     Ok {| res_status := 400;
           res_json := VObj [
             (lit "statusCode", VNum (num_of_nat 400));
             (lit "error", VStr (lit "Bad Request"));
             (lit "message",
              VStr (lit "Missing required parameter: question")) ] |}.
Proof.
  apply (blank_question_is_refused apiClient upstream_error blank).
  reflexivity.
Defined.

(** C8 fails as stated: the question is supplied with white space
    around it, and the retriever is called with the trimmed text. *)
Lemma padded_question_is_retrieved_trimmed :
  get_own padded (lit "question") = VStr (lit "  When does my order ship?  ")
  /\ hd_error (fst (deployed env both_up apiClient (VObj padded))) =
     Some (Retrieve
             {| knowledgeBaseId := Some (lit "KB12345");
                retrievalQuery_text := VStr (lit "When does my order ship?");
                numberOfResults := 5 |}).
Proof. split; vm_compute; reflexivity. Qed.

Lemma retrieval_witness :
  exists rest,
    fst (deployed env both_up apiClient (VObj padded)) =
    Retrieve {| knowledgeBaseId := KNOWLEDGE_BASE_ID env;
                retrievalQuery_text :=
                  VStr (trim (lit "  When does my order ship?  "));
                numberOfResults := 5 |} :: rest.
Proof.
  apply (proj2 (retrieval_uses_the_question_as_received env both_up padded)
           apiClient (lit "  When does my order ship?  ")).
  - reflexivity.
  - vm_compute; reflexivity.
Defined.

Lemma absent_model_witness :
  exists input,
    calls both_up (handler env (VObj plain)) =
      [Retrieve (retrieveInput env (VStr question)); InvokeModel input]
    /\ modelId input = VStr (lit "anthropic.claude-3-haiku-20240307-v1:0").
Proof.
  apply (absent_model_defaults_to_haiku env both_up plain question
           {| retrievalResults := Some [shipping; returns] |}).
  - left. reflexivity.
  - reflexivity.
  - reflexivity.
  - reflexivity.
Defined.

Lemma empty_content_witness :
  calls upstream_error (post_ai_draft apiClient (VObj with_empty_content)) = []
  /\ answer upstream_error
       (post_ai_draft apiClient (VObj with_empty_content)) =
     Ok {| res_status := 400;
           res_json := VObj [
             (lit "statusCode", VNum (num_of_nat 400));
             (lit "error", VStr (lit "Bad Request"));
             (lit "message",
              VStr (lit "Each conversation message must have role and content")) ] |}.
Proof.
  apply (empty_role_or_content_is_refused apiClient upstream_error
           with_empty_content question
           [turn (lit "customer") (lit "I placed an order last week")]
           [] (turn (lit "agent") [])).
  - split; [reflexivity|]. vm_compute. discriminate.
  - reflexivity.
  - reflexivity.
  - reflexivity.
  - eexists. split; [reflexivity|]. right. reflexivity.
Defined.

End Runs.

Section MoreRuns.

Import Reference Samples MoreSamples.

(** A status that is not a success, with a body that cannot be read,
    is answered 500. *)
Lemma unreadable_error_body_is_answered_500 :
  answer cut_off (post_ai_draft apiClient (VObj plain)) =
  Ok {| res_status := 500;
        res_json := VObj [
          (lit "statusCode", VNum (num_of_nat 500));
          (lit "error", VStr (lit "Internal Server Error"));
          (lit "message", VStr (lit "Error invoking Bedrock model")) ] |}.
Proof. vm_compute. reflexivity. Qed.

Lemma unknown_model_witness :
  calls upstream_error
    (post_ai_draft apiClient (VObj with_unknown_model)) = []
  /\ answer upstream_error
       (post_ai_draft apiClient (VObj with_unknown_model)) =
     Ok (envelope 400 (lit "Bad Request")
           (lit "Invalid modelId. Must be one of: anthropic.claude-3-haiku-20240307-v1:0, anthropic.claude-3-sonnet-20240229-v1:0, anthropic.claude-3-opus-20240229-v1:0")).
Proof.
  apply (unknown_model_is_refused apiClient upstream_error
           with_unknown_model question).
  - split; [reflexivity|]. vm_compute. discriminate.
  - reflexivity.
  - reflexivity.
Defined.

Lemma text_history_witness :
  calls upstream_error
    (post_ai_draft apiClient (VObj with_text_history)) = []
  /\ answer upstream_error
       (post_ai_draft apiClient (VObj with_text_history)) =
     Ok (envelope 400 (lit "Bad Request")
           (lit "conversationHistory must be an array")).
Proof.
  apply (history_that_is_no_array_is_refused apiClient upstream_error
           with_text_history question).
  - split; [reflexivity|]. vm_compute. discriminate.
  - reflexivity.
  - reflexivity.
  - reflexivity.
Defined.

Lemma unknown_role_witness :
  calls upstream_error
    (post_ai_draft apiClient (VObj with_unknown_role)) = []
  /\ answer upstream_error
       (post_ai_draft apiClient (VObj with_unknown_role)) =
     Ok (envelope 400 (lit "Bad Request")
           (lit "Message role must be either " ++ dq ++ lit "customer" ++ dq
            ++ lit " or " ++ dq ++ lit "agent" ++ dq)).
Proof.
  apply (unknown_role_is_refused apiClient upstream_error
           with_unknown_role question
           [turn (lit "customer") (lit "I placed an order last week")]
           []
           [ (lit "role", VStr (lit "system"));
             (lit "content", VStr (lit "Answer in one line")) ]).
  - split; [reflexivity|]. vm_compute. discriminate.
  - reflexivity.
  - reflexivity.
  - reflexivity.
  - reflexivity.
  - reflexivity.
  - reflexivity.
Defined.

Lemma null_entry_witness :
  calls upstream_error
    (post_ai_draft apiClient (VObj with_null_entry)) = []
  /\ answer upstream_error
       (post_ai_draft apiClient (VObj with_null_entry)) =
     Ok (envelope 500 (lit "Internal Server Error")
           (lit "Error invoking Bedrock model")).
Proof.
  apply (null_entry_is_answered_by_the_catch_block apiClient upstream_error
           with_null_entry question [] []).
  - split; [reflexivity|]. vm_compute. discriminate.
  - reflexivity.
  - reflexivity.
  - reflexivity.
  - vm_compute. reflexivity.
Defined.

Lemma forwards_once_witness :
  List.length (calls upstream_error (post_ai_draft apiClient (VObj plain)))
    <= 1
  /\ (res_status unavailable = 400 ->
      calls upstream_error (post_ai_draft apiClient (VObj plain)) = [])
  /\ (res_status unavailable = 200 ->
      List.length
        (calls upstream_error (post_ai_draft apiClient (VObj plain))) = 1).
Proof.
  apply (route_forwards_at_most_once apiClient upstream_error (VObj plain)
           unavailable).
  vm_compute. reflexivity.
Defined.

Lemma forwarded_request_witness :
  exists init,
    calls answering (post_ai_draft apiClient (VObj padded)) =
      [Fetch (apiGatewayUrl apiClient ++ lit "/ai-draft") init]
    /\ method init = lit "POST"
    /\ request_headers init =
         [ (lit "Content-Type", lit "application/json") ]
    /\ field (request_body init) (lit "question")
       = VStr (trim (lit "  When does my order ship?  "))
    /\ trim (lit "  When does my order ship?  ") <> []
    /\ no_outer_white_space (trim (lit "  When does my order ship?  "))
    /\ field (request_body init) (lit "requestSessionId")
       = get_own padded (lit "requestSessionId")
    /\ field (request_body init) (lit "modelId")
       = get_own padded (lit "modelId")
    /\ field (request_body init) (lit "conversationHistory")
       = get_own padded (lit "conversationHistory").
Proof.
  apply (forwarded_request_carries_the_trimmed_question apiClient answering
           padded (lit "  When does my order ship?  ")).
  - reflexivity.
  - vm_compute. reflexivity.
  - exact I.
  - exact I.
  - exact I.
Defined.

Lemma relayed_answer_witness :
  exists r,
    answer answering (post_ai_draft apiClient (VObj plain)) = Ok r
    /\ res_status r = 200
    /\ field (res_json r) (lit "response")
       = get_own answered (lit "response")
    /\ field (res_json r) (lit "citation") =
       (if truthy (get_own answered (lit "citation"))
        then get_own answered (lit "citation") else VNull)
    /\ field (res_json r) (lit "sessionId") =
       (if truthy (get_own answered (lit "sessionId"))
        then get_own answered (lit "sessionId") else VNull).
Proof.
  apply (upstream_answer_is_relayed apiClient answering plain answered
           question answered_response).
  - reflexivity.
  - vm_compute. reflexivity.
  - reflexivity.
  - reflexivity.
  - reflexivity.
  - exact I.
  - exact I.
  - exact I.
Defined.

Lemma html_answer_witness :
  calls answering_html (post_ai_draft apiClient (VObj plain)) =
    [fetch_call apiClient
       (queryRequest (trim question)
          (get_own plain (lit "requestSessionId"))
          (get_own plain (lit "modelId"))
          (get_own plain (lit "conversationHistory")))]
  /\ answer answering_html (post_ai_draft apiClient (VObj plain)) =
     Ok (envelope 500 (lit "Internal Server Error")
           (lit "Error invoking Bedrock model")).
Proof.
  apply (unreadable_upstream_answer_is_answered_by_the_catch_block
           apiClient answering_html plain question html_response
           unexpected_token).
  - reflexivity.
  - vm_compute. reflexivity.
  - reflexivity.
  - reflexivity.
  - left. reflexivity.
  - vm_compute. reflexivity.
Defined.

Lemma trailing_slash_witness :
  fetch_call
    (new_BedrockApiClient (lit "https://api.example.com/prod" ++ lit "/"))
    (VObj plain)
  = fetch_call (new_BedrockApiClient (lit "https://api.example.com/prod"))
      (VObj plain)
  /\ (exists init,
        fetch_call (new_BedrockApiClient (lit "https://api.example.com/prod"))
          (VObj plain)
        = Fetch (lit "https://api.example.com/prod" ++ lit "/ai-draft") init)
  /\ apiGatewayUrl
       (new_BedrockApiClient (lit "https://api.example.com/prod" ++ lit "//"))
     = lit "https://api.example.com/prod" ++ lit "/".
Proof.
  apply (trailing_slash_of_the_url_is_dropped
           (lit "https://api.example.com/prod") (VObj plain)).
  vm_compute. reflexivity.
Defined.

Lemma client_result_witness :
  ok answered_response = true
  /\ null_or_true
       (citation (number:=number)
          {| response := get_own answered (lit "response");
             citation := VStr (lit "s3://kb/shipping.pdf");
             sessionId := VNull |})
  /\ null_or_true
       (sessionId (number:=number)
          {| response := get_own answered (lit "response");
             citation := VStr (lit "s3://kb/shipping.pdf");
             sessionId := VNull |}).
Proof.
  apply (client_result_is_null_or_true answered_response).
  vm_compute. reflexivity.
Defined.

Lemma failed_retrieval_witness :
  calls retriever_down (handler env (VObj plain)) =
    [Retrieve (retrieveInput env (get_own plain (lit "question")))].
Proof.
  apply (no_invocation_after_a_failed_retrieval env retriever_down plain
           refused).
  reflexivity.
Defined.

Lemma missing_body_witness :
  calls both_up (handler env VUndefined) = []
  /\ exists e, answer both_up (handler env VUndefined) = Throw e.
Proof.
  apply (missing_body_escapes_the_handler env both_up VUndefined).
  left. reflexivity.
Defined.

Lemma unlocated_passage_witness :
  field (body drafted_uncited) (lit "citation") = VNull.
Proof.
  apply (citation_is_null_for_an_unlocated_first_passage env
           (retrieving [unfiled; shipping]) plain unfiled [shipping]).
  - reflexivity.
  - exact I.
  - vm_compute. reflexivity.
  - reflexivity.
Defined.

Lemma missing_address_witness :
  exists fields,
    body drafted_without_citation = VObj fields
    /\ has_own fields (lit "citation") = false.
Proof.
  apply (citation_is_left_out_without_an_address env
           (retrieving [misfiled; shipping]) plain misfiled [shipping]).
  - reflexivity.
  - eexists. split; [reflexivity|]. left. split; [reflexivity|exact I].
  - vm_compute. reflexivity.
  - reflexivity.
Defined.

Lemma empty_history_witness :
  userPrompt (VStr question) (VArr []) (lit "[Source 1]: Orders ship.")
  = userPrompt (number:=number) (VStr question) VUndefined
      (lit "[Source 1]: Orders ship.").
Proof.
  apply (empty_history_is_no_history (VStr question) (VArr [])).
  right. reflexivity.
Defined.

Lemma rendered_history_witness :
  conversationHistorySection
    (VArr [ turn (lit "customer") (lit "I placed an order last week");
            turn (lit "agent") (lit "Thank you, I will look it up") ]) =
  Ok (lit "<conversation_history>" ++ nl
      ++ join (nl ++ nl)
           (map (fun m => lit "[" ++ speaker m ++ lit "]: " ++ content_text m)
                [ turn (lit "customer") (lit "I placed an order last week");
                  turn (lit "agent") (lit "Thank you, I will look it up") ])
      ++ nl ++ lit "</conversation_history>" ++ nl ++ nl)
  /\ exists plain,
       userPrompt (VStr question) VUndefined
         (lit "[Source 1]: Orders ship.") = Ok plain
       /\ userPrompt (VStr question)
            (VArr [ turn (lit "customer") (lit "I placed an order last week");
                    turn (lit "agent") (lit "Thank you, I will look it up") ])
            (lit "[Source 1]: Orders ship.")
          = Ok ((lit "<conversation_history>" ++ nl
                 ++ join (nl ++ nl)
                      (map (fun m => lit "[" ++ speaker m ++ lit "]: "
                                     ++ content_text m)
                           [ turn (lit "customer")
                               (lit "I placed an order last week");
                             turn (lit "agent")
                               (lit "Thank you, I will look it up") ])
                 ++ nl ++ lit "</conversation_history>" ++ nl ++ nl)
                ++ plain
                ++ lit " Consider the conversation history to maintain context and continuity.").
Proof.
  apply (history_is_rendered_in_order question
           (turn (lit "customer") (lit "I placed an order last week"))
           [turn (lit "agent") (lit "Thank you, I will look it up")]
           (lit "[Source 1]: Orders ship.")).
  reflexivity.
Defined.

Lemma numbered_sources_witness :
  exists input history after,
    calls both_up (handler env (VObj plain)) =
      [Retrieve (retrieveInput env (VStr question)); InvokeModel input]
    /\ conversationHistorySection (number:=number)
         (get_own plain (lit "conversationHistory")) = Ok history
    /\ messages (invoke_body input) =
         [ {| role := lit "user";
              message_content :=
                history ++ lit "<company_knowledge>" ++ nl
                ++ join (nl ++ nl)
                     [ lit "[Source 1]: Orders ship within two business days.";
                       lit "[Source 2]: Returns are accepted for 30 days." ]
                ++ nl ++ lit "</company_knowledge>" ++ after |};
           {| role := lit "assistant";
              message_content := lit "Hi {{CUSTOMER_NAME}}," |} ].
Proof.
  apply (sources_are_numbered_in_ranking_order env both_up plain question
           {| retrievalResults := Some [shipping; returns] |}
           shipping [returns]).
  - reflexivity.
  - reflexivity.
  - reflexivity.
  - reflexivity.
Defined.

Lemma reply_without_content_witness :
  exists prompt,
    calls (replying []) (handler env (VObj plain))
      = [Retrieve (retrieveInput env (VStr question));
         InvokeModel (invokeInput (VStr DEFAULT_MODEL) prompt)]
    /\ answer (replying []) (handler env (VObj plain)) =
       Ok {| statusCode := 500;
             body := VObj [
               (lit "response",
                VStr (lit "Server side error: "
                      ++ fault_message (ReadOfNullish false (lit "0"))));
               (lit "citation", VNull);
               (lit "sessionId", VNull) ];
             headers := [ (lit "Access-Control-Allow-Origin", lit "*") ] |}.
Proof.
  eexists.
  apply (reply_without_content_is_answered_500 env (replying []) plain []
           {| retrievalResults := Some [shipping; returns] |} _ (lit "0")).
  - reflexivity.
  - reflexivity.
  - reflexivity.
  - left. split; reflexivity.
Defined.

Lemma block_without_text_witness :
  exists r,
    answer (replying textless) (handler env (VObj plain)) = Ok r
    /\ statusCode r = 200
    /\ field (body r) (lit "response") =
       VStr (lit "Hi {{CUSTOMER_NAME}}," ++ nl ++ nl ++ lit "undefined").
Proof.
  eapply (block_without_text_is_drafted_as_undefined env (replying textless)
            plain textless [ (lit "type", VStr (lit "text")) ] []
            {| retrievalResults := Some [shipping; returns] |}).
  - reflexivity.
  - reflexivity.
  - reflexivity.
  - reflexivity.
  - reflexivity.
Defined.

Lemma own_model_witness :
  exists input,
    In (InvokeModel input) (calls both_up (handler env (VObj with_own_model)))
    /\ modelId input = VStr (lit "amazon.titan-text-express-v1").
Proof.
  eexists. split.
  2: { apply (given_model_is_invoked_unchecked env both_up with_own_model).
       - reflexivity.
       - cbv. right. left. reflexivity. }
  cbv. right. left. reflexivity.
Defined.

Lemma failure_behind_the_gateway_witness :
  res_status unavailable = 200
  \/ unavailable = envelope 503 (lit "Service Unavailable")
       (lit "Bedrock Knowledge Base temporarily unavailable").
Proof.
  apply (orchestrator_failure_shows_as_503 env retriever_down apiClient
           plain question).
  - reflexivity.
  - vm_compute. reflexivity.
  - vm_compute. reflexivity.
Defined.

Lemma highlighted_part_witness :
  true = true <-> placeholder (lit "{{CUSTOMER_NAME}}").
Proof.
  apply (highlighted_parts_are_the_placeholders
           (lit "Hi {{CUSTOMER_NAME}},")).
  vm_compute. right. left. reflexivity.
Defined.

Lemma drafted_greeting_witness :
  exists email parts,
    field (body drafted) (lit "response") = VStr email
    /\ Chat.formatEmailText email
       = (false, lit "Hi ") :: (true, lit "{{CUSTOMER_NAME}}") :: parts.
Proof.
  apply (drafted_greeting_is_highlighted env both_up with_session).
  - vm_compute. reflexivity.
  - reflexivity.
Defined.

Lemma shown_answer_witness :
  App.history (answer in_session_world (App.handleSendQuestion page)) =
    App.history page
    ++ [ {| App.question := App.currentQuestion page;
            App.response := get_own in_session (lit "response");
            App.citation := get_own in_session (lit "citation") |} ]
  /\ App.sessionId (answer in_session_world (App.handleSendQuestion page))
     = get_own in_session (lit "sessionId").
Proof.
  apply (answer_is_shown_whatever_its_status in_session_world page
           in_session_response in_session).
  - reflexivity.
  - reflexivity.
Defined.

Lemma failed_send_witness :
  App.history (answer unreachable (App.handleSendQuestion page)) =
    App.history page
    ++ [ {| App.question := App.currentQuestion page;
            App.response := VStr App.ERROR_TEXT;
            App.citation := VUndefined |} ]
  /\ App.sessionId (answer unreachable (App.handleSendQuestion page))
     = App.sessionId page.
Proof.
  apply (failed_send_keeps_the_session unreachable page).
  left. eexists. reflexivity.
Defined.

Lemma threaded_session_witness :
  (exists url init,
     calls unreachable
       (App.handleSendQuestion
          (answer in_session_world (App.handleSendQuestion page)))
     = [Fetch url init]
     /\ field (request_body init) (lit "requestSessionId")
        = get_own in_session (lit "sessionId"))
  /\ (exists url init,
        calls unreachable
          (App.handleSendQuestion
             (App.handleChangeModel VNull
                (answer in_session_world (App.handleSendQuestion page))))
        = [Fetch url init]
        /\ field (request_body init) (lit "requestSessionId") = VUndefined)
  /\ App.sessionId
       (App.onClearHistory
          (answer in_session_world (App.handleSendQuestion page)))
     = get_own in_session (lit "sessionId").
Proof.
  apply (session_is_threaded in_session_world unreachable page
           in_session_response in_session VNull).
  - reflexivity.
  - reflexivity.
  - exact I.
Defined.

End MoreRuns.
